(** * Crisis detection and escalation engine

    A shallow embedding of [backend/guardrailes/crisis_detector.py]
    (class [CrisisDetectionSystem]) and the properties its specification
    states about it.

    Conventions of the embedding:
    - a Python [str] is a [string] holding its UTF-8 bytes; substring tests
      on valid UTF-8 agree with substring tests on code points;
    - a Python [float] score is an exact rational [Q]; every threshold the
      code compares against (0.5, 1.0, 2.0, 2.5, 3.0) is exactly
      representable in binary64, rounding of sums is not modelled;
    - a [dict] is a [gmap], a [set] is a [gset] (iterated through
      [elements]), the static tables that the code iterates over are
      association lists in source order, with distinct keys;
    - [self.session_history] is threaded explicitly, exceptions are values
      of [result]. *)

From Stdlib Require Import QArith Lqa Ascii String.
From stdpp Require Import gmap strings list fin_maps.

Local Open Scope string_scope.
Local Open Scope list_scope.

(** ** Text primitives: [str.lower] and [in] *)

(** [str.lower] on the ASCII range.  Python also folds the cased letters
    outside ASCII; the tables hold Arabic text only, which has no case, so
    no match against a table entry depends on them. *)
Definition lower_ascii (c : ascii) : ascii :=
  let n := N_of_ascii c in
  if ((65 <=? n) && (n <=? 90))%N then ascii_of_N (n + 32) else c.

Fixpoint lower (s : string) : string :=
  match s with
  | EmptyString => EmptyString
  | String c s' => String (lower_ascii c) (lower s')
  end.

(** [needle in hay] on Python strings. *)
Fixpoint contains (needle hay : string) : bool :=
  String.prefix needle hay ||
  match hay with
  | EmptyString => false
  | String _ hay' => contains needle hay'
  end.

(** Number of positions of [hay] at which [needle] starts: the number of
    occurrences of a keyword in a text. *)
Fixpoint occurrences (needle hay : string) : nat :=
  (if String.prefix needle hay then 1 else 0) +
  match hay with
  | EmptyString => 0
  | String _ hay' => occurrences needle hay'
  end.

(** ** Exceptions *)

Inductive exn : Type :=
| re_error
| KeyError (key : string).

Inductive result (A : Type) : Type :=
| Ok (a : A)
| Raise (e : exn).
Arguments Ok {A} a.
Arguments Raise {A} e.

#[global] Instance result_bind : MBind result :=
  fun A B (k : A -> result B) (r : result A) =>
    match r with
    | Ok a => k a
    | Raise e => Raise e
    end.

(** [d[key]] on a dict. *)
Definition getitem {V} (d : gmap string V) (key : string) : result V :=
  match d !! key with
  | Some v => Ok v
  | None => Raise (KeyError key)
  end.

(** [d.update(new)]: the entries of [new] overwrite those of [d]. *)
Definition update {V} (d new : gmap string V) : gmap string V := new ∪ d.

(** A dict display [{k1: v1, ..., kn: vn}]: entries are stored left to
    right. *)
Definition dict {V} (entries : list (string * V)) : gmap string V :=
  foldl (fun d kv => <[kv.1 := kv.2]> d) ∅ entries.

(** ** The fragment of Python's [re] that the pattern table uses

    Literal characters, [.], [*], [|] and capturing groups, matched by
    backtracking with greedy repetition, under [re.IGNORECASE]. *)
Module re.

Inductive regex : Type :=
| Empty
| Chr (bytes : string)      (* one character, as its UTF-8 bytes *)
| Dot                       (* any character but a newline *)
| Cat (r1 r2 : regex)
| Alt (r1 r2 : regex)
| Star (r : regex)          (* greedy *)
| Group (r : regex).        (* capturing *)

(** *** Parsing *)

Definition is_continuation (c : ascii) : bool :=
  let n := N_of_ascii c in ((128 <=? n) && (n <? 192))%N.

(** Metacharacters of [re] outside the fragment. *)
Definition unsupported (c : ascii) : bool :=
  bool_decide (c ∈ list_ascii_of_string "?+{}[]\^$").

(** A group under construction: the alternatives already closed by a
    [|], and the items of the current alternative, both most recent
    first. *)
Record frame : Type := Frame { alts : list regex; items : list regex }.

Definition seq_of (rev_items : list regex) : regex :=
  foldl (fun acc r => match acc with Empty => r | _ => Cat r acc end)
        Empty rev_items.

Definition close (f : frame) : regex :=
  foldl (fun acc r => Alt r acc) (seq_of (items f)) (alts f).

Definition push (r : regex) (f : frame) : frame :=
  Frame (alts f) (r :: items f).

Fixpoint parse (s : string) (cur : frame) (stack : list frame)
  : option regex :=
  match s with
  | EmptyString =>
      match stack with
      | [] => Some (close cur)
      | _ :: _ => None                 (* missing ")" *)
      end
  | String c s' =>
      if Ascii.eqb c "(" then parse s' (Frame [] []) (cur :: stack)
      else if Ascii.eqb c ")" then
        match stack with
        | [] => None                   (* unbalanced parenthesis *)
        | outer :: stack' => parse s' (push (Group (close cur)) outer) stack'
        end
      else if Ascii.eqb c "|" then
        parse s' (Frame (seq_of (items cur) :: alts cur) []) stack
      else if Ascii.eqb c "*" then
        match items cur with
        | [] => None                   (* nothing to repeat *)
        | Star _ :: _ => None          (* multiple repeat *)
        | r :: rest => parse s' (Frame (alts cur) (Star r :: rest)) stack
        end
      else if Ascii.eqb c "." then parse s' (push Dot cur) stack
      else if unsupported c then None
      else if is_continuation c then
        match items cur with
        | Chr bytes :: rest =>
            parse s' (Frame (alts cur) (Chr (bytes ++ String c "")%string :: rest))
                  stack
        | _ => parse s' (push (Chr (String c "")) cur) stack
        end
      else parse s' (push (Chr (String c "")) cur) stack
  end.

(** [re.compile(pattern, re.IGNORECASE)]; [None] stands for the
    exception [re.error]. *)
Definition compile (pattern : string) : option regex :=
  parse pattern (Frame [] []) [].

(** *** Matching *)

Definition newline : ascii := ascii_of_N 10.

(** Drops the continuation bytes that complete the current character. *)
Fixpoint skip_continuation (s : string) : string :=
  match s with
  | String c s' => if is_continuation c then skip_continuation s' else s
  | EmptyString => s
  end.

(** The rest of [s] behind [bytes], compared without regard to case. *)
Fixpoint strip_prefix (bytes s : string) : option string :=
  match bytes, s with
  | EmptyString, _ => Some s
  | String b bytes', String c s' =>
      if Ascii.eqb (lower_ascii b) (lower_ascii c)
      then strip_prefix bytes' s' else None
  | String _ _, EmptyString => None
  end.

(** The part of [s] in front of its suffix [rest]. *)
Definition consumed (s rest : string) : string :=
  String.substring 0 (String.length s - String.length rest) s.

(** A match is the list of its captured groups and the unread rest. *)
Definition outcome : Type := option (list string * string).

(** [run r caps s k]: match [r] at the head of [s], then continue with
    [k]; the first alternative whose continuation succeeds wins, and a
    repetition gives up one iteration at a time. *)
Fixpoint run (r : regex) (caps : list string) (s : string)
         (k : list string -> string -> outcome) {struct r} : outcome :=
  match r with
  | Empty => k caps s
  | Chr bytes =>
      match strip_prefix bytes s with
      | Some s' => k caps s'
      | None => None
      end
  | Dot =>
      match s with
      | String c s' =>
          if Ascii.eqb c newline then None else k caps (skip_continuation s')
      | EmptyString => None
      end
  | Cat r1 r2 => run r1 caps s (fun caps' s' => run r2 caps' s' k)
  | Alt r1 r2 =>
      match run r1 caps s k with
      | Some m => Some m
      | None => run r2 caps s k
      end
  | Star r1 =>
      (fix iterate (n : nat) (caps : list string) (s : string) : outcome :=
         match n with
         | O => k caps s
         | S n' =>
             match
               run r1 caps s (fun caps' s' =>
                 if (String.length s' <? String.length s)%nat
                 then iterate n' caps' s' else None)
             with
             | Some m => Some m
             | None => k caps s
             end
         end) (String.length s) caps s
  | Group r1 =>
      run r1 caps s (fun caps' s' => k (caps' ++ [consumed s s']) s')
  end.

(** One match attempt at the head of [s]; with [must_advance] an empty
    match is refused. *)
Definition attempt (r : regex) (s : string) (must_advance : bool)
  : outcome :=
  run r [] s (fun caps rest =>
    if must_advance && (String.length rest =? String.length s)%nat
    then None else Some (caps, rest)).

(** The leftmost match in [s]: the captured groups, the rest behind the
    match, and whether the match was empty. *)
Fixpoint search (r : regex) (s : string) (must_advance : bool)
  : option (list string * string * bool) :=
  let here :=
    match s with
    | String c _ =>
        if is_continuation c then None else attempt r s must_advance
    | EmptyString => attempt r s must_advance
    end in
  match here with
  | Some (caps, rest) =>
      Some (caps, rest, (String.length rest =? String.length s)%nat)
  | None =>
      match s with
      | String _ s' => search r s' false
      | EmptyString => None
      end
  end.

(** The loop of [findall]: after an empty match the next one starts at
    the same place and must advance.  Every round either shortens the
    text or sets [must_advance], so [2 * length s + 2] rounds suffice. *)
Fixpoint matches (rounds : nat) (r : regex) (s : string)
         (must_advance : bool) : list (list string) :=
  match rounds with
  | O => []
  | S rounds' =>
      match search r s must_advance with
      | Some (caps, rest, empty) => caps :: matches rounds' r rest empty
      | None => []
      end
  end.

(** [re.findall(pattern, text, re.IGNORECASE)]: one entry per
    non-overlapping match, holding the groups of that match in the order
    in which they were closed (for a pattern without groups Python puts
    the matched text itself there; the callers only count the entries).
    The pattern is compiled by the call. *)
Definition findall (pattern text : string) : result (list (list string)) :=
  match compile pattern with
  | Some r => Ok (matches (2 * String.length text + 2) r text false)
  | None => Raise re_error
  end.

End re.

(** ** Enumerations *)

Inductive CrisisType : Type :=
| SUICIDE
| SELF_HARM
| VIOLENCE
| SEVERE_DEPRESSION
| PSYCHOSIS
| SUBSTANCE_ABUSE
| EATING_DISORDER.

Inductive CrisisLevel : Type :=
| LOW
| MEDIUM
| HIGH
| CRITICAL.

#[global] Instance CrisisType_eq_dec : EqDecision CrisisType.
Proof. solve_decision. Defined.

#[global] Instance CrisisLevel_eq_dec : EqDecision CrisisLevel.
Proof. solve_decision. Defined.

(** [crisis_type.value] *)
Definition type_value (t : CrisisType) : string :=
  match t with
  | SUICIDE => "suicide"
  | SELF_HARM => "self_harm"
  | VIOLENCE => "violence"
  | SEVERE_DEPRESSION => "severe_depression"
  | PSYCHOSIS => "psychosis"
  | SUBSTANCE_ABUSE => "substance_abuse"
  | EATING_DISORDER => "eating_disorder"
  end.

(** [crisis_level.value] *)
Definition level_value (l : CrisisLevel) : string :=
  match l with
  | LOW => "low"
  | MEDIUM => "medium"
  | HIGH => "high"
  | CRITICAL => "critical"
  end.

(** ** The static tables *)

Local Open Scope Q_scope.

Definition _build_crisis_keywords : list (CrisisType * list string) :=
  [(SUICIDE,
     ["أريد أن أموت"; "بدي أموت"; "نفسي أموت"; "أقتل نفسي"; "سأقتل نفسي";
      "أنتحر"; "انتحار"; "أنهي حياتي"; "لا أريد أن أعيش"; "مللت من الحياة";
      "الموت أحسن"; "أستحق الموت"; "العالم أحسن بدوني"; "أذهب للأبد";
      "لا فائدة من وجودي"; "محد يحتاجني"; "عبء على الجميع"; "أرتاح لو مت";
      "أتمنى أنام ولا أصحى"; "خلصت من الدنيا"; "نهاية المطاف"; "آخر خيار";
      "حل نهائي"; "راحة أبدية"; "أخطط لـ"; "قررت أن"; "لن أكون هنا";
      "وداعاً للجميع"; "آخر رسالة"; "توديع"; "وصية"; "انتهى كل شيء"]);
    (SELF_HARM,
     ["أؤذي نفسي"; "أجرح نفسي"; "أقطع نفسي"; "أضرب نفسي"; "أحرق نفسي";
      "أعذب نفسي"; "أكسر"; "أخدش"; "سكين"; "شفرة"; "حرق"; "ضرب"; "عض";
      "خدش"; "أستحق الألم"; "أعاقب نفسي"; "أستحق العذاب"; "ألم جسدي";
      "أشعر بالألم"; "دم"; "جروح"; "ندوب"; "أريد أن أشعر بشيء";
      "ألم حقيقي"; "ألم أستطيع رؤيته"; "طريقة للتحكم"; "الألم الوحيد";
      "أتحكم في ألمي"]);
    (VIOLENCE,
     ["سأقتل"; "أريد أن أؤذي"; "سأضرب"; "سأدمر"; "أنتقم"; "سأؤذي من";
      "أقتله"; "أكسر رأسه"; "أفجر"; "أحرق"; "أدمر كل شيء"; "أنهي الجميع";
      "لا أستطيع التحكم"; "سأفقد السيطرة"; "غضب شديد"; "أعمى من الغضب";
      "سأفعل شيئاً سيئاً"; "أفقد عقلي"]);
    (SEVERE_DEPRESSION,
     ["لا أمل"; "لا فائدة"; "مستحيل"; "ميؤوس منه"; "الظلام فقط"; "لا ضوء";
      "نفق مظلم"; "لا مخرج"; "مسدود الأفق"; "لا حل"; "انتهى كل شيء";
      "لا قيمة لي"; "فاشل"; "عديم الفائدة"; "لا أستحق"; "أسوأ شخص";
      "لا أصلح لشيء"; "عبء على الجميع"; "وحيد تماماً"; "محد يفهمني";
      "محد يحبني"; "منبوذ"; "لا أحد يهتم"; "معزول"; "منفرد"; "وحش"]);
    (PSYCHOSIS,
     ["أسمع أصوات"; "أرى أشياء"; "يراقبونني"; "يتجسسون"; "مؤامرة ضدي";
      "يطاردونني"; "صوت يقول لي"; "أشياء غريبة"; "لست حقيقي";
      "العالم ليس حقيقي"; "أفكاري مختلطة"; "لا أفهم نفسي";
      "كلام غير منطقي"; "رسائل خفية"; "معاني مخفية"; "علامات"]);
    (SUBSTANCE_ABUSE,
     ["أفرط في"; "إدمان"; "مخدرات"; "كحول"; "حبوب"; "لا أستطيع التوقف";
      "أحتاج المزيد"; "انسحاب"; "جرعة زائدة"; "تسمم"; "أعراض"; "اعتماد"])].

Definition _build_omani_crisis_expressions : list (CrisisType * list string) :=
  [(SUICIDE,
     ["خلاص تعبت من الدنيا"; "ما عد أقدر أكمل"; "أرتاح لو رحت";
      "مللت من كل شي"; "ما لي فايدة"; "الموت أحسن لي"; "خلصت من هالحياة"]);
    (SELF_HARM,
     ["أعذب روحي"; "أوجع نفسي"; "أضر بروحي"; "أستاهل الألم";
      "ألم أحسه بجسمي"]);
    (SEVERE_DEPRESSION,
     ["محطم نفسياً واجد"; "ضايق صدري مرة"; "قلبي مكسور";
      "حالتي زينة ما هي"; "نفسيتي في الأرض"; "دايخ من الهموم"]);
    (VIOLENCE,
     ["راح أكسر كل شي"; "أفجر فيهم"; "أورجيهم"; "أخليهم يندمون";
      "ما راح أسكت"])].

Definition _build_crisis_patterns : list (string * (CrisisType * Q)) :=
  [("(أريد|بدي|نفسي).*(أموت|أقتل نفسي|أنتحر)",
     (SUICIDE, 0.9));
    ("(سأقتل|راح أقتل).*(نفسي|روحي)",
     (SUICIDE, 0.95));
    ("(لا أريد|ما بدي).*(أعيش|أكمل|أستمر)",
     (SUICIDE, 0.8));
    ("(أؤذي|أجرح|أقطع).*(نفسي|روحي)",
     (SELF_HARM, 0.85));
    ("(شفرة|سكين|حرق).*(نفس|جسم)",
     (SELF_HARM, 0.8));
    ("(سأقتل|راح أقتل|أقتل).*(كل|جميع|الناس)",
     (VIOLENCE, 0.9));
    ("(أؤذي|أضرب|أكسر).*(أحد|شخص|واحد)",
     (VIOLENCE, 0.7));
    ("(لا أمل|لا فائدة|مستحيل).*(نهائياً|أبداً|تماماً)",
     (SEVERE_DEPRESSION, 0.7));
    ("(عبء|فاشل|عديم).*(الجميع|الكل|الناس)",
     (SEVERE_DEPRESSION, 0.6))].

Definition _build_emergency_resources : gmap string (gmap string string) :=
  dict
   [("emergency", dict
      [("general_emergency", "999");
       ("police", "999");
       ("ambulance", "999");
       ("fire", "999")]);
    ("hospitals", dict
      [("sultan_qaboos_hospital", "+968 24211411");
       ("royal_hospital", "+968 24599000");
       ("khoula_hospital", "+968 24560441");
       ("nizwa_hospital", "+968 25431800")]);
    ("mental_health", dict
      [("mental_health_hotline", "مكتوب قريباً");
       ("psychological_services", "وزارة الصحة - الخدمات النفسية");
       ("crisis_intervention", "قسم الطوارئ النفسية");
       ("social_services", "وزارة التنمية الاجتماعية")]);
    ("support", dict
      [("family_guidance", "مراكز الإرشاد الأسري");
       ("youth_centers", "مراكز الشباب");
       ("women_centers", "مراكز المرأة");
       ("community_centers", "المراكز المجتمعية")])].

(** ** Data model *)

(** The dict a channel matcher returns: [{"types": [...], "scores": {...},
    "..._found": [...]}]. *)
Record Results (A : Type) : Type := mkResults {
  types : list string;
  scores : gmap string Q;
  found : list A
}.
Arguments mkResults {A} _ _ _.
Arguments types {A} _.
Arguments scores {A} _.
Arguments found {A} _.

(** The dict [_calculate_combined_score] returns. *)
Record CombinedScore : Type := mkCombinedScore {
  combined_types : list string;
  combined_scores : gmap string Q;
  total_score : Q;
  keyword_details : Results string;
  pattern_details : Results (list string);
  dialect_details : Results string
}.

(** One entry of a session history. *)
Record SessionRecord : Type := mkSessionRecord {
  timestamp : Z;
  score : Q;
  record_types : list string
}.

(** The dict [assess_crisis_level] returns. *)
Record Assessment : Type := mkAssessment {
  crisis_level : string;
  crisis_score : Q;
  detected_types : list string;
  requires_escalation : bool;
  requires_immediate_intervention : bool;
  session_pattern_risk : Q;
  resources : gmap string string
}.

(** The attributes of a [CrisisDetectionSystem] instance. *)
Record CrisisDetectionSystem : Type := mkSystem {
  crisis_keywords : list (CrisisType * list string);
  crisis_patterns : list (string * (CrisisType * Q));
  omani_crisis_expressions : list (CrisisType * list string);
  emergency_resources : gmap string (gmap string string);
  session_history : gmap string (list SessionRecord)
}.


(** The instance [CrisisDetectionSystem()] builds from the tables of the
    class. *)
Definition __init__ : CrisisDetectionSystem :=
  mkSystem _build_crisis_keywords _build_crisis_patterns
           _build_omani_crisis_expressions _build_emergency_resources ∅.

(** The same instance later in its life: only the session map changes. *)
Definition with_history (self : CrisisDetectionSystem)
    (history : gmap string (list SessionRecord)) : CrisisDetectionSystem :=
  mkSystem (crisis_keywords self) (crisis_patterns self)
           (omani_crisis_expressions self) (emergency_resources self) history.

(** ** Channel matchers *)

Definition Qlt_bool (x y : Q) : bool := negb (Qle_bool y x).

(** The inner loop of the lexicon and dialect matchers: [weight] is added
    for every entry of [entries] that occurs in [text]. *)
Definition scan_entries (weight : Q) (entries : list string) (text : string)
  : Q * list string :=
  foldl (fun '(score, found_entries) entry =>
           if contains (lower entry) text
           then (score + weight, found_entries ++ [entry])
           else (score, found_entries))
        (0, []) entries.

Definition check_table (weight : Q) (table : list (CrisisType * list string))
    (text : string) : Results string :=
  foldl (fun results '(crisis_type, entries) =>
           let '(score, found_entries) := scan_entries weight entries text in
           if Qlt_bool 0 score
           then mkResults (types results ++ [type_value crisis_type])
                          (<[type_value crisis_type := score]> (scores results))
                          (found results ++ found_entries)
           else results)
        (mkResults [] ∅ []) table.

Definition _check_crisis_keywords (self : CrisisDetectionSystem)
    (text : string) : Results string :=
  check_table 1 (crisis_keywords self) text.

Definition _check_omani_expressions (self : CrisisDetectionSystem)
    (text : string) : Results string :=
  check_table 1.2 (omani_crisis_expressions self) text.

Fixpoint check_patterns (table : list (string * (CrisisType * Q)))
    (text : string) (results : Results (list string))
  : result (Results (list string)) :=
  match table with
  | [] => Ok results
  | (pattern, (crisis_type, weight)) :: table' =>
      matches ← re.findall pattern text;
      match matches with
      | [] => check_patterns table' text results
      | _ :: _ =>
          let type_name := type_value crisis_type in
          let results :=
            if bool_decide (type_name ∈ dom (scores results)) then results
            else mkResults (types results ++ [type_name])
                           (<[type_name := 0]> (scores results))
                           (found results) in
          check_patterns table' text
            (mkResults (types results)
               (<[type_name := default 0 (scores results !! type_name)
                               + inject_Z (Z.of_nat (length matches)) * weight]>
                  (scores results))
               (found results ++ matches))
      end
  end.

Definition _check_crisis_patterns (self : CrisisDetectionSystem)
    (text : string) : result (Results (list string)) :=
  check_patterns (crisis_patterns self) text (mkResults [] ∅ []).

(** ** Score fusion *)

(** [d.get(key, 0)] *)
Definition get (d : gmap string Q) (key : string) : Q := default 0 (d !! key).

(** [sum(d.values())] *)
Definition sum_values (d : gmap string Q) : Q :=
  foldl Qplus 0 (map_to_list d).*2.

Definition _calculate_combined_score
    (keyword_results : Results string)
    (pattern_results : Results (list string))
    (dialect_results : Results string) : CombinedScore :=
  let all_types : gset string :=
    foldl (fun all_types results_types => all_types ∪ list_to_set results_types)
          ∅ [types keyword_results; types pattern_results;
             types dialect_results] in
  let combined_scores :=
    foldl (fun combined_scores crisis_type =>
             let total_score := 0 in
             let total_score :=
               total_score + get (scores keyword_results) crisis_type * 0.3 in
             let total_score :=
               total_score + get (scores pattern_results) crisis_type * 0.5 in
             let total_score :=
               total_score + get (scores dialect_results) crisis_type * 0.4 in
             <[crisis_type := total_score]> combined_scores)
          ∅ (elements all_types) in
  let total_score := sum_values combined_scores in
  mkCombinedScore (elements all_types) combined_scores total_score
                  keyword_results pattern_results dialect_results.

(** ** Level classifier *)

Definition _determine_crisis_level (combined_score : CombinedScore)
  : CrisisLevel :=
  let total_score := total_score combined_score in
  let detected_types := combined_types combined_score in
  if Qle_bool 3.0 total_score then CRITICAL
  else if bool_decide ("suicide" ∈ detected_types) && Qle_bool 2.0 total_score
  then CRITICAL
  else if bool_decide ("violence" ∈ detected_types) && Qle_bool 2.5 total_score
  then CRITICAL
  else if Qle_bool 2.0 total_score then HIGH
  else if (bool_decide ("suicide" ∈ detected_types)
           || bool_decide ("self_harm" ∈ detected_types))
          && Qle_bool 1.0 total_score
  then HIGH
  else if Qle_bool 1.0 total_score then MEDIUM
  else if bool_decide ("severe_depression" ∈ detected_types)
          && Qle_bool 0.5 total_score
  then MEDIUM
  else LOW.

(** ** Session tracker *)

(** The slice [l[-n:]] for a positive [n]. *)
Definition last_n {A} (n : nat) (l : list A) : list A :=
  drop (length l - n) l.

(** [all(xs[i] < xs[i+1] for i in range(len(xs) - 1))] *)
Definition all_increasing (xs : list Q) : bool :=
  forallb (fun i => Qlt_bool (nth i xs 0) (nth (i + 1) xs 0))
          (seq 0 (length xs - 1)).

(** [now] is the value of [datetime.now()] at the call.  The result is the
    risk and the instance with its session map updated. *)
Definition _analyze_session_patterns (self : CrisisDetectionSystem)
    (session_id : string) (current_score : CombinedScore) (now : Z)
  : Q * CrisisDetectionSystem :=
  let session_history :=
    if bool_decide (session_id ∈ dom (session_history self))
    then session_history self
    else <[session_id := []]> (session_history self) in
  let session_history :=
    <[session_id :=
        default [] (session_history !! session_id)
        ++ [mkSessionRecord now (total_score current_score)
                            (combined_types current_score)]]>
      session_history in
  let session_history :=
    <[session_id := last_n 10 (default [] (session_history !! session_id))]>
      session_history in
  let self := with_history self session_history in
  let history := default [] (session_history !! session_id) in
  let escalating :=
    (3 <=? length history)%nat &&
    (let recent_scores := score <$> last_n 3 history in
     all_increasing recent_scores) in
  if escalating then (0.5, self)
  else
    let crisis_count :=
      length (filter (fun entry => Qlt_bool 1.0 (score entry) = true) history) in
    if (2 <=? crisis_count)%nat then (0.3, self)
    else (0.0, self).

(** ** Resource resolver *)

Definition _get_relevant_resources (self : CrisisDetectionSystem)
    (crisis_types : list string) : result (gmap string string) :=
  let resources : gmap string string := ∅ in
  emergency ← getitem (emergency_resources self) "emergency";
  let resources := update resources emergency in
  resources ←
    (if existsb (fun t => bool_decide (t ∈ crisis_types))
                ["suicide"; "self_harm"; "severe_depression"]
     then
       mental_health ← getitem (emergency_resources self) "mental_health";
       let resources := update resources mental_health in
       hospitals ← getitem (emergency_resources self) "hospitals";
       Ok (update resources hospitals)
     else Ok resources);
  resources ←
    (if bool_decide ("violence" ∈ crisis_types)
     then
       emergency ← getitem (emergency_resources self) "emergency";
       police ← getitem emergency "police";
       Ok (<["police" := police]> resources)
     else Ok resources);
  support ← getitem (emergency_resources self) "support";
  Ok (update resources support).

(** ** Assessment *)

(** The test [if session_id:] on an optional string: [None] and the empty
    string are false. *)
Definition truthy (session_id : option string) : option string :=
  match session_id with
  | Some id => if String.eqb id "" then None else Some id
  | None => None
  end.

(** The result of a call (an assessment or an exception) together with the
    instance after it.  The warning written to the log is not modelled. *)
Definition assess_crisis_level (self : CrisisDetectionSystem) (text : string)
    (session_id : option string) (now : Z)
  : result Assessment * CrisisDetectionSystem :=
  let text_lower := lower text in
  let keyword_results := _check_crisis_keywords self text_lower in
  match _check_crisis_patterns self text_lower with
  | Raise e => (Raise e, self)
  | Ok pattern_results =>
      let dialect_results := _check_omani_expressions self text_lower in
      let combined_score :=
        _calculate_combined_score keyword_results pattern_results
                                  dialect_results in
      let crisis_level := _determine_crisis_level combined_score in
      let '(session_pattern_risk, self) :=
        match truthy session_id with
        | Some id => _analyze_session_patterns self id combined_score now
        | None => (0, self)
        end in
      (resources ← _get_relevant_resources self (combined_types combined_score);
       Ok (mkAssessment
             (level_value crisis_level)
             (total_score combined_score)
             (combined_types combined_score)
             (bool_decide (crisis_level ∈ [HIGH; CRITICAL]))
             (bool_decide (crisis_level = CRITICAL))
             session_pattern_risk
             resources),
       self)
  end.

(** ** Response composer *)

Definition _generate_critical_response (crisis_types : list string) : string :=
  if bool_decide ("suicide" ∈ crisis_types) then
"
🚨 أفهم أنك تمر بوقت صعب جداً، لكن حياتك مهمة وقيمة.

يرجى التواصل فوراً مع:
📞 الطوارئ: 999
🏥 مستشفى السلطان قابوس: 24211411
🆘 أو توجه لأقرب قسم طوارئ

لست وحدك. هناك أشخاص يريدون مساعدتك.
            "
  else if bool_decide ("violence" ∈ crisis_types) then
"
⚠️ أرى أنك تشعر بغضب شديد. دعنا نجد طرق آمنة للتعامل مع هذه المشاعر.

يرجى:
📞 الاتصال بـ 999 إذا كنت في خطر
🚶‍♂️ أخذ مساحة آمنة من الموقف
🧘‍♂️ التنفس بعمق وهدوء

أتفهم غضبك، لكن سلامتك وسلامة الآخرين أهم.
            "
  else
"
🆘 أشعر بقلق شديد عليك. يرجى طلب المساعدة المهنية فوراً.

📞 اتصل بـ 999 أو توجه لأقرب مستشفى
👨‍⚕️ تحدث مع طبيب أو أخصائي نفسي
👨‍👩‍👧‍👦 أخبر شخص تثق به من عائلتك

وضعك يمكن تحسينه بالمساعدة المناسبة.
            ".

Definition _generate_high_response (crisis_types : list string) : string :=
"
💛 أقدر ثقتك في مشاركة مشاعرك. ما تمر به صعب، لكن هناك حلول ومساعدة.

🔗 موارد المساعدة:
📞 خط المساعدة النفسية (قريباً)
🏥 مراكز الصحة النفسية
👨‍👩‍👧‍👦 التحدث مع شخص تثق به

🤲 تذكر أن الله معك في كل لحظة، والفرج قادم بإذن الله.
        ".

Definition _generate_medium_response (crisis_types : list string) : string :=
"
💙 أفهم أنك تواجه تحديات. هذا طبيعي في الحياة، والمهم كيف نتعامل معها.

💡 اقتراحات مفيدة:
🗣️ التحدث مع شخص تثق به
🤲 الدعاء والذكر للراحة النفسية
📚 قراءة القرآن للسكينة
🚶‍♂️ المشي والرياضة الخفيفة

أنا هنا لدعمك في هذه الرحلة.
        ".

Definition _generate_low_response (crisis_types : list string) : string :=
"
💚 أسعدني أنك تشاركني أفكارك. التعبير عن المشاعر خطوة إيجابية.

دعنا نتحدث أكثر عما تشعر به وكيف يمكنني مساعدتك.
        ".

Definition generate_crisis_response (assessment : Assessment) : string :=
  let crisis_level := crisis_level assessment in
  let detected_types := detected_types assessment in
  if String.eqb crisis_level "critical"
  then _generate_critical_response detected_types
  else if String.eqb crisis_level "high"
  then _generate_high_response detected_types
  else if String.eqb crisis_level "medium"
  then _generate_medium_response detected_types
  else _generate_low_response detected_types.

(** A conversation: the calls made on one instance, in order. *)
Definition turn : Type := string * option string * Z.

Definition run_turns (self : CrisisDetectionSystem) (turns : list turn)
  : CrisisDetectionSystem :=
  foldl (fun self '(text, session_id, now) =>
           (assess_crisis_level self text session_id now).2)
        self turns.

(** ** The rules of the specification, in its own words *)

#[global] Instance Qle_decision (x y : Q) : Decision (x <= y).
Proof.
  destruct (Qlt_le_dec y x) as [Hlt | Hle].
  - right. by apply Qlt_not_le.
  - by left.
Defined.

#[global] Instance Qlt_decision (x y : Q) : Decision (x < y).
Proof.
  destruct (Qlt_le_dec x y) as [Hlt | Hle].
  - by left.
  - right. by apply Qle_not_lt.
Defined.

(** An ordered rule list: the first rule whose guard holds decides. *)
Fixpoint first_match {A} (rules : list (bool * A)) (otherwise : A) : A :=
  match rules with
  | [] => otherwise
  | (guard, a) :: rules' => if guard then a else first_match rules' otherwise
  end.

(** Section 4.3: the eight rules of the level classifier. *)
Definition level_rules (total : Q) (detected : list string)
  : list (bool * CrisisLevel) :=
  [ (bool_decide (3 <= total), CRITICAL);
    (bool_decide ("suicide" ∈ detected ∧ 2 <= total), CRITICAL);
    (bool_decide ("violence" ∈ detected ∧ 2.5 <= total), CRITICAL);
    (bool_decide (2 <= total), HIGH);
    (bool_decide (("suicide" ∈ detected ∨ "self_harm" ∈ detected)
                  ∧ 1 <= total), HIGH);
    (bool_decide (1 <= total), MEDIUM);
    (bool_decide ("severe_depression" ∈ detected ∧ 0.5 <= total), MEDIUM) ].

(** [table.get(t, [])] on a static table. *)
Fixpoint entries_for (table : list (CrisisType * list string))
    (t : CrisisType) : list string :=
  match table with
  | [] => []
  | (t', entries) :: table' =>
      if decide (t' = t) then entries else entries_for table' t
  end.

(** Section 4.1, lexicon matcher: the keywords of a list that occur in the
    text, and the number of occurrences of the keywords of a list in the
    text. *)
Definition matching (entries : list string) (text : string) : list string :=
  filter (fun entry => contains (lower entry) text = true) entries.

Definition keyword_occurrences (entries : list string) (text : string) : nat :=
  foldr (fun entry n => (occurrences (lower entry) text + n)%nat) 0%nat entries.

(** Section 4.1 as written: the raw score of a type is the number of
    occurrences of its keywords in the text. *)
Definition counts_occurrences (self : CrisisDetectionSystem) (text : string)
    (t : CrisisType) : Prop :=
  get (scores (_check_crisis_keywords self (lower text))) (type_value t)
  == inject_Z (Z.of_nat
       (keyword_occurrences (entries_for (crisis_keywords self) t)
                            (lower text))).


(** Section 4.4 as written: the trend rule looks at the last three
    records, the persistence rule at all retained records. *)
Definition escalating_trend (history : list SessionRecord) : bool :=
  match reverse history with
  | c :: b :: a :: _ => bool_decide (score a < score b ∧ score b < score c)
  | _ => false
  end.

Definition persistent_signal (history : list SessionRecord) : bool :=
  bool_decide (2 <= length (filter (fun r => (1 < score r)%Q) history))%nat.

Definition session_risk (history : list SessionRecord) : Q :=
  first_match [ (escalating_trend history, 0.5);
                (persistent_signal history, 0.3) ] 0.0.

(** Section 3: no history of the session map is longer than 10. *)
Definition bounded (self : CrisisDetectionSystem) : Prop :=
  map_Forall (fun _ history => (length history <= 10)%nat)
             (session_history self).

(** Section 4.5: the contacts of one group of the static directory, and
    the types that call for the health contacts. *)
Definition contacts (group : string) : gmap string string :=
  default ∅ (_build_emergency_resources !! group).

Definition needs_health_contacts (crisis_types : list string) : Prop :=
  "suicide" ∈ crisis_types ∨ "self_harm" ∈ crisis_types
  ∨ "severe_depression" ∈ crisis_types.

(** Section 3: a channel result maps the types that matched to positive
    raw scores; its list of types names exactly those. *)
Definition well_formed {A} (r : Results A) : Prop :=
  list_to_set (types r) = dom (scores r)
  ∧ map_Forall (fun _ q => 0 < q) (scores r).

(** Section 4.2: the combined score of one type. *)
Definition combined_of {A B C} (lexicon : Results A) (pattern : Results B)
    (dialect : Results C) (t : string) : Q :=
  0.3 * get (scores lexicon) t + 0.5 * get (scores pattern) t
  + 0.4 * get (scores dialect) t.

Definition Qsum (l : list Q) : Q := foldr Qplus 0 l.

(** The history a tracked turn leaves behind for its session. *)
Definition next_history (self : CrisisDetectionSystem) (session_id : string)
    (current_score : CombinedScore) (now : Z) : list SessionRecord :=
  last_n 10 (default [] (session_history self !! session_id)
             ++ [mkSessionRecord now (total_score current_score)
                                 (combined_types current_score)]).

(** ** Sample inputs *)

(** A text with one suicide keyword, one match of the first suicide
    pattern and one suicide idiom of the dialect table. *)
Definition sample_text : string := "أريد أن أموت خلاص تعبت من الدنيا".

Definition pattern_results_of (text : string) : Results (list string) :=
  match _check_crisis_patterns __init__ (lower text) with
  | Ok results => results
  | Raise _ => mkResults [] ∅ []
  end.

(** A fused score with the given total and types. *)
Definition fused_score (total : Q) (detected : list string) : CombinedScore :=
  mkCombinedScore detected ∅ total (mkResults [] ∅ []) (mkResults [] ∅ [])
                  (mkResults [] ∅ []).

(** The risks of a session over its turns, for the given totals. *)
Fixpoint session_risks (self : CrisisDetectionSystem) (session_id : string)
    (totals : list Q) : list Q :=
  match totals with
  | [] => []
  | total :: totals' =>
      let '(risk, self) :=
        _analyze_session_patterns self session_id (fused_score total []) 0 in
      risk :: session_risks self session_id totals'
  end.

(** ** Further definitions *)

(** The fused score of a text, given what the pattern matcher returned. *)
Definition fuse (self : CrisisDetectionSystem) (text : string)
    (pattern_results : Results (list string)) : CombinedScore :=
  _calculate_combined_score (_check_crisis_keywords self (lower text))
                            pattern_results
                            (_check_omani_expressions self (lower text)).

(** The order of the levels: low < medium < high < critical. *)
Definition level_rank (l : CrisisLevel) : nat :=
  match l with LOW => 0 | MEDIUM => 1 | HIGH => 2 | CRITICAL => 3 end.

(** The record a tracked turn of the static instance appends. *)
Definition record_of (t : turn) : SessionRecord :=
  let '(text, _, now) := t in
  let fused := fuse __init__ text (pattern_results_of text) in
  mkSessionRecord now (total_score fused) (combined_types fused).

(** The turns of a conversation that are tracked under a session id. *)
Definition turns_of (session_id : string) (turns : list turn) : list turn :=
  filter (fun t : turn => truthy t.1.2 = Some session_id) turns.
(** An assessment with its session risk replaced. *)
Definition with_risk (a : Assessment) (risk : Q) : Assessment :=
  mkAssessment (crisis_level a) (crisis_score a) (detected_types a)
               (requires_escalation a) (requires_immediate_intervention a)
               risk (resources a).

(** The first key of the directory a call of the resolver misses, if any:
    the keys are read in this order. *)
Definition missing_key (self : CrisisDetectionSystem)
    (crisis_types : list string) : option string :=
  let directory := emergency_resources self in
  match directory !! "emergency" with
  | None => Some "emergency"
  | Some emergency =>
      let health := bool_decide (needs_health_contacts crisis_types) in
      if health && bool_decide (directory !! "mental_health" = None)
      then Some "mental_health"
      else if health && bool_decide (directory !! "hospitals" = None)
      then Some "hospitals"
      else if bool_decide ("violence" ∈ crisis_types)
              && bool_decide (emergency !! "police" = None)
      then Some "police"
      else if bool_decide (directory !! "support" = None)
      then Some "support"
      else None
  end.
(** An assessment with other detected types. *)
Definition with_types (a : Assessment) (detected : list string) : Assessment :=
  mkAssessment (crisis_level a) (crisis_score a) detected
               (requires_escalation a) (requires_immediate_intervention a)
               (session_pattern_risk a) (resources a).
(** Texts of ASCII characters only, and strings that start with a byte
    outside ASCII (as every UTF-8 encoded Arabic word does). *)
Definition is_ascii (c : ascii) : bool := (N_of_ascii c <? 128)%N.

Fixpoint ascii_only (text : string) : bool :=
  match text with
  | EmptyString => true
  | String c text' => is_ascii c && ascii_only text'
  end.

Definition starts_non_ascii (s : string) : bool :=
  match s with
  | EmptyString => false
  | String c _ => negb (is_ascii c)
  end.

(** A pattern every match of which starts with a character outside
    ASCII. *)
Fixpoint head_non_ascii (r : re.regex) : bool :=
  match r with
  | re.Chr bytes => starts_non_ascii bytes
  | re.Cat r1 _ => head_non_ascii r1
  | re.Alt r1 r2 => head_non_ascii r1 && head_non_ascii r2
  | re.Group r1 => head_non_ascii r1
  | re.Empty | re.Dot | re.Star _ => false
  end.

Definition compiles_to_non_ascii_head (pattern : string) : bool :=
  match re.compile pattern with
  | Some r => head_non_ascii r
  | None => false
  end.

(** * Properties *)

(** ** Comparisons on scores *)

Lemma Qle_bool_decide (x y : Q) : Qle_bool x y = bool_decide (x <= y).
Proof.
  destruct (Qle_bool x y) eqn:E.
  - symmetry. apply bool_decide_eq_true. by apply Qle_bool_iff.
  - symmetry. apply bool_decide_eq_false. intros H.
    apply Qle_bool_iff in H. congruence.
Qed.

Lemma Qlt_bool_iff (x y : Q) : Qlt_bool x y = true <-> x < y.
Proof.
  unfold Qlt_bool. rewrite negb_true_iff. split.
  - intros E. apply Qnot_le_lt. intros H. apply Qle_bool_iff in H. congruence.
  - intros H. destruct (Qle_bool y x) eqn:E; [|done].
    apply Qle_bool_iff in E. exfalso. by apply (Qlt_not_le x y).
Qed.

Lemma Qlt_bool_decide (x y : Q) : Qlt_bool x y = bool_decide (x < y).
Proof.
  destruct (Qlt_bool x y) eqn:E.
  - symmetry. apply bool_decide_eq_true. by apply Qlt_bool_iff.
  - symmetry. apply bool_decide_eq_false. intros H.
    apply Qlt_bool_iff in H. congruence.
Qed.

(** ** Level classifier *)

Lemma bool_decide_and_andb (P R : Prop) `{Decision P, Decision R} :
  bool_decide (P ∧ R) = bool_decide P && bool_decide R.
Proof. destruct (decide P), (decide R); repeat case_bool_decide; tauto. Qed.

Lemma bool_decide_or_orb (P R : Prop) `{Decision P, Decision R} :
  bool_decide (P ∨ R) = bool_decide P || bool_decide R.
Proof. destruct (decide P), (decide R); repeat case_bool_decide; tauto. Qed.

(** The chain of tests of the code is the rule list of section 4.3. *)
Lemma determine_crisis_level_as_rule_list (combined_score : CombinedScore) :
  _determine_crisis_level combined_score
  = first_match (level_rules (total_score combined_score)
                             (combined_types combined_score)) LOW.
Proof.
  unfold _determine_crisis_level, level_rules, first_match.
  rewrite !bool_decide_and_andb, bool_decide_or_orb, <- !Qle_bool_decide.
  assert (E3 : forall q, Qle_bool 3 q = Qle_bool 3.0 q)
    by (intros q; by apply Qleb_comp).
  assert (E2 : forall q, Qle_bool 2 q = Qle_bool 2.0 q)
    by (intros q; by apply Qleb_comp).
  assert (E1 : forall q, Qle_bool 1 q = Qle_bool 1.0 q)
    by (intros q; by apply Qleb_comp).
  rewrite E3, !E2, !E1. reflexivity.
Qed.

Ltac settle_guards :=
  repeat match goal with
         | |- context [bool_decide ?P] =>
             first [ rewrite (bool_decide_eq_true_2 P) by tauto
                   | rewrite (bool_decide_eq_false_2 P) by tauto ]
         end.

(** C1: for every fused result the level classifier returns the level of
    the first rule of the ordered list of section 4.3 that matches, LOW
    when none does: CRITICAL exactly when rule 1, 2 or 3 holds, HIGH
    exactly when none of these holds and rule 4 or 5 does, MEDIUM exactly
    when none of the first five holds and rule 6 or 7 does, LOW exactly
    when no rule holds; every threshold is compared with [<=], a score
    equal to a threshold passes it. *)
Theorem determine_crisis_level_rules (combined_score : CombinedScore) :
  let total := total_score combined_score in
  let detected := combined_types combined_score in
  let critical :=
    3 <= total ∨ ("suicide" ∈ detected ∧ 2 <= total)
    ∨ ("violence" ∈ detected ∧ 2.5 <= total) in
  let high :=
    2 <= total
    ∨ (("suicide" ∈ detected ∨ "self_harm" ∈ detected) ∧ 1 <= total) in
  let medium :=
    1 <= total ∨ ("severe_depression" ∈ detected ∧ 0.5 <= total) in
  let level := _determine_crisis_level combined_score in
  level = first_match (level_rules total detected) LOW
  ∧ (level = CRITICAL <-> critical)
  ∧ (level = HIGH <-> ¬ critical ∧ high)
  ∧ (level = MEDIUM <-> ¬ critical ∧ ¬ high ∧ medium)
  ∧ (level = LOW <-> ¬ critical ∧ ¬ high ∧ ¬ medium).
Proof.
  intros total detected critical high medium level.
  split; [apply determine_crisis_level_as_rule_list |].
  subst level. rewrite determine_crisis_level_as_rule_list.
  fold total detected. unfold level_rules, first_match.
  subst critical high medium.
  destruct (decide (3 <= total)), (decide (2.5 <= total));
    try (exfalso; lra);
    destruct (decide (2 <= total)); try (exfalso; lra);
    destruct (decide (1 <= total)); try (exfalso; lra);
    destruct (decide (0.5 <= total)); try (exfalso; lra);
    destruct (decide ("suicide" ∈ detected)), (decide ("violence" ∈ detected)),
      (decide ("self_harm" ∈ detected)),
      (decide ("severe_depression" ∈ detected));
    settle_guards; repeat split; solve [done | tauto].
Qed.

(** ** Score fusion *)

Lemma Qsum_perm (l l' : list Q) : l ≡ₚ l' -> Qsum l == Qsum l'.
Proof.
  induction 1 as [| x l l' _ IH | x y l | l l' l'' _ IH1 _ IH2]; simpl.
  - reflexivity.
  - by rewrite IH.
  - ring.
  - by rewrite IH1.
Qed.

Lemma foldl_Qplus (l : list Q) (a : Q) : foldl Qplus a l == a + Qsum l.
Proof.
  revert a. induction l as [| x l IH]; intros a; simpl.
  - ring.
  - rewrite IH. ring.
Qed.

(** Filling a dict from a list of distinct keys. *)
Lemma foldl_insert_list_to_map {V} (f : string -> V) (l : list string) :
  foldl (fun (m : gmap string V) t => <[t := f t]> m) ∅ l
  = list_to_map ((fun t => (t, f t)) <$> reverse l).
Proof.
  induction l as [| t l IH] using rev_ind; [done |].
  rewrite foldl_app, reverse_snoc. csimpl. by rewrite IH.
Qed.

Lemma fst_pair_fmap {V} (f : string -> V) (l : list string) :
  ((fun t => (t, f t)) <$> l).*1 = l.
Proof. induction l as [| t l IH]; csimpl; [done | by rewrite IH]. Qed.

Lemma snd_pair_fmap {V} (f : string -> V) (l : list string) :
  ((fun t => (t, f t)) <$> l).*2 = f <$> l.
Proof. induction l as [| t l IH]; csimpl; [done | by rewrite IH]. Qed.


Lemma sum_values_foldl_insert (f : string -> Q) (l : list string) :
  NoDup l ->
  sum_values (foldl (fun (m : gmap string Q) t => <[t := f t]> m) ∅ l)
  == Qsum (f <$> l).
Proof.
  intros Hnd. unfold sum_values. rewrite foldl_Qplus, Qplus_0_l.
  rewrite foldl_insert_list_to_map.
  assert (Hperm : (map_to_list (list_to_map (M := gmap string Q)
                      ((fun t => (t, f t)) <$> reverse l))).*2 ≡ₚ f <$> l).
  { rewrite map_to_list_to_map
      by (by rewrite fst_pair_fmap, reverse_Permutation).
    rewrite snd_pair_fmap. by rewrite reverse_Permutation. }
  by apply Qsum_perm.
Qed.

Lemma Qsum_fmap_ext {A} (f g : A -> Q) (l : list A) :
  (forall x, f x == g x) -> Qsum (f <$> l) == Qsum (g <$> l).
Proof.
  intros Hfg. induction l as [| x l IH]; csimpl; [reflexivity |].
  by rewrite IH, Hfg.
Qed.

Section well_formed_results.
Context {A : Type} (r : Results A) (Hwf : well_formed r).

Lemma well_formed_types (t : string) : t ∈ types r <-> 0 < get (scores r) t.
Proof using Hwf.
  destruct Hwf as [Hdom Hpos]. unfold get.
  rewrite <- (elem_of_list_to_set (C := gset string)), Hdom, elem_of_dom.
  destruct (scores r !! t) as [q |] eqn:E; simpl.
  - split; [intros _; by apply (Hpos t) | by eauto].
  - split; [by intros [? ?] | intros H; by apply Qlt_irrefl in H].
Qed.

Lemma well_formed_nonneg (t : string) : 0 <= get (scores r) t.
Proof using Hwf.
  destruct Hwf as [_ Hpos]. unfold get.
  destruct (scores r !! t) as [q |] eqn:E; simpl.
  - apply Qlt_le_weak. by apply (Hpos t).
  - apply Qle_refl.
Qed.
End well_formed_results.


(** ** Lexicon and dialect matchers *)

#[global] Instance type_value_inj : Inj (=) (=) type_value.
Proof. intros [] [] H; (done || by vm_compute in H). Qed.

Lemma append_cons (c : ascii) (s1 s2 : string) :
  String c s1 +:+ s2 = String c (s1 +:+ s2).
Proof. reflexivity. Qed.

Lemma prefix_spec (s1 s2 : string) :
  String.prefix s1 s2 = true <-> exists rest, s2 = s1 +:+ rest.
Proof.
  revert s2. induction s1 as [| c s1 IH]; intros [| d s2]; simpl.
  - split; [by exists ""%string | done].
  - split; [by exists (String d s2) | done].
  - split; [done | by intros [? ?]].
  - setoid_rewrite append_cons.
    destruct (ascii_dec c d) as [-> | Hne].
    + rewrite IH. split; intros [rest H]; exists rest; congruence.
    + split; [done | intros [rest H]; congruence].
Qed.

Lemma contains_nil (needle : string) :
  contains needle "" = String.prefix needle "".
Proof. simpl. apply orb_false_r. Qed.

Lemma contains_cons (needle : string) (c : ascii) (hay : string) :
  contains needle (String c hay)
  = String.prefix needle (String c hay) || contains needle hay.
Proof. reflexivity. Qed.

(** [contains] is the substring test. *)
Lemma contains_spec (needle hay : string) :
  contains needle hay = true <->
  exists before after, hay = before +:+ needle +:+ after.
Proof.
  induction hay as [| c hay IH].
  - rewrite contains_nil, prefix_spec. split.
    + intros [rest H]. by exists ""%string, rest.
    + intros ([| ? ?] & after & H); [by exists after | done].
  - rewrite contains_cons, orb_true_iff, IH, prefix_spec. split.
    + intros [[rest H] | (before & after & ->)].
      * by exists ""%string, rest.
      * by exists (String c before), after.
    + intros ([| d before] & after & H).
      * left. by exists after.
      * right. exists before, after. rewrite append_cons in H. congruence.
Qed.

Lemma Qplus_inject_Z_1 (a : Z) : inject_Z a + 1 = inject_Z (a + 1).
Proof. unfold Qplus, inject_Z. simpl. f_equal. lia. Qed.

(** The inner loop returns the entries that occur in the text and [weight]
    times their number. *)
Lemma scan_entries_acc (weight : Q) (entries : list string) (text : string)
    (acc : Q) (found_entries : list string) :
  foldl (fun '(score, found_entries) entry =>
           if contains (lower entry) text
           then (score + weight, found_entries ++ [entry])
           else (score, found_entries))
        (acc, found_entries) entries
  = (foldl (fun score _ => score + weight) acc (matching entries text),
     found_entries ++ matching entries text).
Proof.
  revert acc found_entries.
  induction entries as [| entry entries IH]; intros acc found_entries.
  - simpl. by rewrite app_nil_r.
  - unfold matching. simpl. rewrite filter_cons.
    destruct (contains (lower entry) text) eqn:E.
    + rewrite decide_True by done. rewrite IH. simpl.
      by rewrite <- app_assoc.
    + rewrite decide_False by congruence. by rewrite IH.
Qed.

Lemma scan_entries_matching (weight : Q) (entries : list string) (text : string) :
  scan_entries weight entries text
  = (foldl (fun score _ => score + weight) 0 (matching entries text),
     matching entries text).
Proof. unfold scan_entries. by rewrite scan_entries_acc. Qed.

Lemma foldl_add_one {A} (l : list A) (a : Z) :
  foldl (fun score _ => score + 1) (inject_Z a) l
  = inject_Z (a + Z.of_nat (length l)).
Proof.
  revert a. induction l as [| x l IH]; intros a; simpl.
  - f_equal. lia.
  - rewrite Qplus_inject_Z_1, IH. f_equal. lia.
Qed.

Lemma foldl_add_weight {A} (weight : Q) (l : list A) (a : Q) :
  foldl (fun score _ => score + weight) a l
  == a + inject_Z (Z.of_nat (length l)) * weight.
Proof.
  revert a. induction l as [| x l IH]; intros a.
  - simpl. ring.
  - cbn [foldl length]. rewrite IH, Nat2Z.inj_succ, <- Z.add_1_r, inject_Z_plus.
    ring.
Qed.

(** One round of the outer loop. *)
Lemma check_table_snoc (weight : Q) (table : list (CrisisType * list string))
    (crisis_type : CrisisType) (entries : list string) (text : string) :
  check_table weight (table ++ [(crisis_type, entries)]) text
  = let results := check_table weight table text in
    let score := (scan_entries weight entries text).1 in
    if Qlt_bool 0 score
    then mkResults (types results ++ [type_value crisis_type])
                   (<[type_value crisis_type := score]> (scores results))
                   (found results ++ (scan_entries weight entries text).2)
    else results.
Proof.
  unfold check_table. rewrite foldl_app. simpl.
  by destruct (scan_entries weight entries text).
Qed.

Lemma check_table_well_formed (weight : Q)
    (table : list (CrisisType * list string)) (text : string) :
  well_formed (check_table weight table text).
Proof.
  induction table as [| [crisis_type entries] table IH] using rev_ind.
  - split; [done | apply map_Forall_empty].
  - rewrite check_table_snoc. simpl.
    destruct (Qlt_bool 0 _) eqn:E; [| done].
    destruct IH as [Hdom Hpos]. split; simpl.
    + rewrite list_to_set_app_L, dom_insert_L, Hdom. simpl.
      rewrite (right_id_L ∅ (∪)). apply (comm_L (∪)).
    + apply map_Forall_insert_2; [| done]. by apply Qlt_bool_iff.
Qed.

Lemma entries_for_absent (table : list (CrisisType * list string))
    (t : CrisisType) :
  t ∉ table.*1 -> entries_for table t = [].
Proof.
  induction table as [| [t' entries] table IH]; [done |]. csimpl.
  rewrite not_elem_of_cons. intros [Hne Hnotin].
  rewrite decide_False by done. by apply IH.
Qed.

Lemma entries_for_snoc (table : list (CrisisType * list string))
    (t' : CrisisType) (entries : list string) (t : CrisisType) :
  t' ∉ table.*1 ->
  entries_for (table ++ [(t', entries)]) t
  = if decide (t' = t) then entries else entries_for table t.
Proof.
  intros Hnotin. induction table as [| [t'' entries''] table IH].
  - done.
  - csimpl in *. apply not_elem_of_cons in Hnotin as [Hne Hnotin].
    rewrite IH by done.
    destruct (decide (t'' = t)) as [-> |]; [| done].
    by rewrite decide_False.
Qed.

(** With distinct keys in the table, the score a matcher stores for a type
    is the one of the entries of that type, and it is stored when it is
    positive only. *)
Lemma check_table_lookup (weight : Q)
    (table : list (CrisisType * list string)) (text : string)
    (t : CrisisType) :
  NoDup table.*1 ->
  let score := (scan_entries weight (entries_for table t) text).1 in
  scores (check_table weight table text) !! type_value t
  = if Qlt_bool 0 score then Some score else None.
Proof.
  induction table as [| [t' entries] table IH] using rev_ind; intros Hnd.
  - done.
  - rewrite fmap_app in Hnd. apply NoDup_app in Hnd as (Hnd & Hnotin & _).
    assert (Hnotin' : t' ∉ table.*1).
    { intros Hin. apply (Hnotin t' Hin). csimpl. apply list_elem_of_here. }
    rewrite entries_for_snoc by done. rewrite check_table_snoc.
    specialize (IH Hnd). cbv zeta in *.
    destruct (decide (t' = t)) as [-> | Hne].
    + destruct (Qlt_bool 0 (scan_entries weight entries text).1) eqn:E.
      * simpl. by rewrite lookup_insert_eq.
      * rewrite IH, (entries_for_absent _ _ Hnotin'). done.
    + destruct (Qlt_bool 0 (scan_entries weight entries text).1); [| done].
      simpl. rewrite lookup_insert_ne; [done |].
      intros Heq. by apply (inj type_value) in Heq.
Qed.

Lemma keyword_tables_distinct_keys :
  NoDup (crisis_keywords __init__).*1
  ∧ NoDup (omani_crisis_expressions __init__).*1.
Proof. split; by apply (bool_decide_unpack _). Qed.

(** C4, as the code has it: for every input text and every crisis type,
    the lexicon channel's raw score for the type is the number of keywords
    of the type that occur in the lowercased text -- a keyword counts 1
    however often it occurs, there is no per-keyword weight -- and a type
    none of whose keywords occurs is absent from the channel result. *)
Theorem check_crisis_keywords_counts_keywords (text : string) (t : CrisisType) :
  let results := _check_crisis_keywords __init__ (lower text) in
  let n := length (matching (entries_for (crisis_keywords __init__) t)
                            (lower text)) in
  scores results !! type_value t
  = (if decide (n = 0%nat) then None else Some (inject_Z (Z.of_nat n)))
  ∧ (type_value t ∈ types results <-> n ≠ 0%nat).
Proof.
  intros results n.
  assert (Hlookup : scores results !! type_value t
            = if decide (n = 0%nat) then None
              else Some (inject_Z (Z.of_nat n))).
  { subst results. unfold _check_crisis_keywords.
    rewrite check_table_lookup by apply keyword_tables_distinct_keys.
    cbv zeta. rewrite scan_entries_matching. cbn [fst].
    rewrite (foldl_add_one _ 0). fold n. rewrite Z.add_0_l.
    destruct n as [| n']; [done |].
    rewrite decide_False by done.
    replace (Qlt_bool 0 (inject_Z (Z.of_nat (S n')))) with true; [done |].
    symmetry. apply Qlt_bool_iff. unfold Qlt. simpl. lia. }
  split; [done |].
  destruct (check_table_well_formed 1 (crisis_keywords __init__) (lower text))
    as [Hdom _].
  fold (_check_crisis_keywords __init__ (lower text)) in Hdom. fold results in Hdom.
  rewrite <- (elem_of_list_to_set (C := gset string)), Hdom, elem_of_dom, Hlookup.
  case_decide; split; done.
Qed.

(** C4 as stated fails: in a text in which one keyword of a type occurs
    twice, the keywords of the type have two occurrences and the lexicon
    score of the type is 1. *)
Lemma check_crisis_keywords_occurrences_counterexample :
  let text := "دم دم" in
  keyword_occurrences (entries_for (crisis_keywords __init__) SELF_HARM)
                      (lower text) = 2%nat
  ∧ scores (_check_crisis_keywords __init__ (lower text))
      !! type_value SELF_HARM = Some 1
  ∧ ¬ counts_occurrences __init__ text SELF_HARM.
Proof.
  cbv zeta. split; [by vm_compute | split; [by vm_compute |]].
  unfold counts_occurrences. vm_compute. discriminate.
Qed.

(** ** The matching loop never runs out of rounds *)

Lemma strip_prefix_length (bytes s rest : string) :
  re.strip_prefix bytes s = Some rest ->
  (String.length rest <= String.length s)%nat.
Proof.
  revert s. induction bytes as [| b bytes IH]; intros [| c s]; simpl; try done.
  - by intros [= <-].
  - by intros [= <-].
  - destruct (Ascii.eqb _ _); [| done]. intros H. apply IH in H. lia.
Qed.

Lemma skip_continuation_length (s : string) :
  (String.length (re.skip_continuation s) <= String.length s)%nat.
Proof.
  induction s as [| c s IH]; simpl; [done |].
  destruct (re.is_continuation c); simpl; lia.
Qed.

(** A successful run hands its continuation a suffix no longer than the
    text it started from. *)
Lemma run_shortens (r : re.regex) :
  forall caps s k m,
    re.run r caps s k = Some m ->
    exists caps' s',
      (String.length s' <= String.length s)%nat ∧ k caps' s' = Some m.
Proof.
  induction r as [| bytes | | r1 IH1 r2 IH2 | r1 IH1 r2 IH2 | r1 IH1 | r1 IH1];
    intros caps s k m; simpl.
  - intros H. by exists caps, s.
  - destruct (re.strip_prefix bytes s) as [s' |] eqn:E; [| done].
    intros H. exists caps, s'. split; [by eapply strip_prefix_length | done].
  - destruct s as [| c s]; [done |].
    destruct (Ascii.eqb c re.newline); [done |].
    intros H. exists caps, (re.skip_continuation s). split; [| done].
    pose proof (skip_continuation_length s). simpl. lia.
  - intros H. apply IH1 in H as (caps1 & s1 & Hlen1 & H).
    apply IH2 in H as (caps2 & s2 & Hlen2 & H).
    exists caps2, s2. split; [lia | done].
  - destruct (re.run r1 caps s k) as [m1 |] eqn:E.
    + intros [= <-]. by apply IH1 in E.
    + intros H. by apply IH2 in H.
  - generalize (String.length s) at 1. intros n. revert caps s.
    induction n as [| n IHn]; intros caps s.
    + intros H. by exists caps, s.
    + match goal with
      | |- context [re.run r1 caps s ?k1] =>
          destruct (re.run r1 caps s k1) as [m1 |] eqn:E
      end.
      * intros [= <-]. apply IH1 in E as (caps1 & s1 & Hlen1 & E).
        destruct (String.length s1 <? String.length s)%nat; [| done].
        apply IHn in E as (caps2 & s2 & Hlen2 & E).
        exists caps2, s2. split; [lia | done].
      * intros H. by exists caps, s.
  - intros H. apply IH1 in H as (caps1 & s1 & Hlen1 & H).
    by exists (caps1 ++ [re.consumed s s1]), s1.
Qed.

Lemma attempt_shortens (r : re.regex) (s : string) (must_advance : bool)
    (caps : list string) (rest : string) :
  re.attempt r s must_advance = Some (caps, rest) ->
  (String.length rest <= String.length s)%nat
  ∧ (must_advance = true -> String.length rest ≠ String.length s).
Proof.
  unfold re.attempt. intros H.
  apply run_shortens in H as (caps' & s' & Hlen & H).
  destruct (must_advance && (String.length s' =? String.length s)%nat) eqn:E;
    [done |].
  injection H as <- <-. split; [done |].
  intros ->. simpl in E. by apply Nat.eqb_neq in E.
Qed.

Lemma search_shortens (r : re.regex) (s : string) (must_advance : bool)
    (caps : list string) (rest : string) (empty : bool) :
  re.search r s must_advance = Some (caps, rest, empty) ->
  (String.length rest <= String.length s)%nat
  ∧ (empty = false -> (String.length rest < String.length s)%nat)
  ∧ (must_advance = true -> (String.length rest < String.length s)%nat).
Proof.
  revert must_advance. induction s as [| c s IH]; intros must_advance.
  - simpl. destruct (re.attempt r "" must_advance) as [[caps' rest'] |] eqn:E;
      [| done].
    intros [= <- <- <-]. apply attempt_shortens in E as [Hlen Hadv].
    simpl in *. repeat split; [done | |].
    + intros Hne. apply Nat.eqb_neq in Hne. lia.
    + intros Hm. specialize (Hadv Hm). lia.
  - cbn [re.search]. cbv zeta.
    destruct (re.is_continuation c).
    + intros H. apply IH in H as (Hlen & _ & _). simpl. repeat split; lia.
    + destruct (re.attempt r (String c s) must_advance)
        as [[caps' rest'] |] eqn:E.
      * intros [= <- <- <-]. apply attempt_shortens in E as [Hlen Hadv].
        cbn [String.length] in *. repeat split; [done | |].
        -- intros Hne. apply Nat.eqb_neq in Hne. lia.
        -- intros Hm. specialize (Hadv Hm). lia.
      * intros H. apply IH in H as (Hlen & _ & _). simpl. repeat split; lia.
Qed.

(** More rounds than [2 * length s + 1] change nothing: the round budget
    of [findall] is never exhausted. *)
Lemma matches_enough_rounds (r : re.regex) (rounds rounds' : nat) :
  forall (s : string) (must_advance : bool),
    (2 * String.length s + (if must_advance then 0 else 1) < rounds)%nat ->
    (2 * String.length s + (if must_advance then 0 else 1) < rounds')%nat ->
    re.matches rounds r s must_advance = re.matches rounds' r s must_advance.
Proof.
  revert rounds'. induction rounds as [| rounds IH];
    intros rounds' s must_advance Hr Hr'; [lia |].
  destruct rounds' as [| rounds']; [lia |]. simpl.
  destruct (re.search r s must_advance) as [[[caps rest] empty] |] eqn:E;
    [| done].
  apply search_shortens in E as (Hlen & Hempty & Hadv).
  f_equal. apply IH.
  - destruct empty, must_advance;
      try specialize (Hempty eq_refl); try specialize (Hadv eq_refl); lia.
  - destruct empty, must_advance;
      try specialize (Hempty eq_refl); try specialize (Hadv eq_refl); lia.
Qed.

Lemma findall_rounds (pattern text : string) (r : re.regex) (rounds : nat) :
  re.compile pattern = Some r ->
  (2 * String.length text + 1 < rounds)%nat ->
  re.findall pattern text = Ok (re.matches rounds r text false).
Proof.
  intros Hr Hrounds. unfold re.findall. rewrite Hr. f_equal.
  apply matches_enough_rounds; lia.
Qed.

(** ** Pattern matcher *)

Lemma findall_compiled (pattern text : string) :
  is_Some (re.compile pattern) -> exists found, re.findall pattern text = Ok found.
Proof. intros [r Hr]. unfold re.findall. rewrite Hr. by eauto. Qed.


Lemma findall_raises (pattern text : string) (e : exn) :
  re.findall pattern text = Raise e -> e = re_error ∧ re.compile pattern = None.
Proof.
  unfold re.findall. destruct (re.compile pattern); [done |].
  intros [= <-]. done.
Qed.

(** The matcher gets through a table all of whose patterns compile. *)
Lemma check_patterns_compiled (table : list (string * (CrisisType * Q)))
    (text : string) (results : Results (list string)) :
  Forall (fun entry => is_Some (re.compile entry.1)) table ->
  exists results', check_patterns table text results = Ok results'.
Proof.
  intros Hall. revert results.
  induction Hall as [| [pattern [crisis_type weight]] table Hc _ IH];
    intros results; simpl.
  - by eauto.
  - destruct (findall_compiled pattern text Hc) as [found ->]. simpl.
    destruct found; apply IH.
Qed.


Lemma static_patterns_compile :
  Forall (fun entry => is_Some (re.compile entry.1)) _build_crisis_patterns.
Proof. apply (bool_decide_unpack _). vm_compute. exact I. Qed.

Lemma static_weights_positive :
  Forall (fun entry => 0 < entry.2.2) _build_crisis_patterns.
Proof. apply (bool_decide_unpack _). vm_compute. exact I. Qed.

(** The pattern matcher keeps a channel result well formed. *)
Lemma check_patterns_well_formed (table : list (string * (CrisisType * Q)))
    (text : string) (results results' : Results (list string)) :
  Forall (fun entry => 0 < entry.2.2) table ->
  well_formed results ->
  check_patterns table text results = Ok results' ->
  well_formed results'.
Proof.
  intros Hall. revert results.
  induction Hall as [| [pattern [crisis_type weight]] table Hw _ IH];
    intros results Hwf; simpl.
  - by intros [= <-].
  - destruct (re.findall pattern text) as [found | e]; [| done]. simpl.
    destruct found as [| m found]; [by apply IH |].
    apply IH. simpl in Hw.
    set (type_name := type_value crisis_type).
    set (n := inject_Z (Z.of_nat (length (m :: found)))).
    assert (Hn : 0 < n * weight).
    { apply Qmult_lt_0_compat; [| done]. unfold n, Qlt. simpl. lia. }
    destruct Hwf as [Hdom Hpos].
    case_bool_decide as Hin; split; simpl.
    + rewrite dom_insert_L, Hdom.
      apply set_eq. intros t. rewrite elem_of_union, elem_of_singleton.
      split; [by right | intros [-> | ?]; done].
    + apply map_Forall_insert_2; [| done].
      apply elem_of_dom in Hin as [q Hq]. rewrite Hq. simpl.
      pose proof (Hpos _ _ Hq). simpl in *. lra.
    + rewrite lookup_insert_eq. simpl.
      rewrite insert_insert_eq, dom_insert_L, list_to_set_app_L, Hdom. simpl.
      rewrite (right_id_L ∅ (∪)). apply (comm_L (∪)).
    + rewrite lookup_insert_eq, insert_insert_eq. simpl.
      apply map_Forall_insert_2; [| done]. lra.
Qed.

Lemma check_crisis_patterns_static (history : gmap string (list SessionRecord))
    (text : string) :
  exists results,
    _check_crisis_patterns (with_history __init__ history) text = Ok results
    ∧ well_formed results.
Proof.
  destruct (check_patterns_compiled _build_crisis_patterns text
              (mkResults [] ∅ []) static_patterns_compile) as [results Hr].
  exists results. split; [done |].
  apply (check_patterns_well_formed _ _ _ _ static_weights_positive) in Hr;
    [done |].
  split; [done | apply map_Forall_empty].
Qed.



(** ** Session tracker *)

Lemma length_last_n {A} (n : nat) (l : list A) :
  length (last_n n l) = (n `min` length l)%nat.
Proof. unfold last_n. rewrite length_drop. lia. Qed.

Lemma last_n_suffix {A} (n : nat) (l : list A) : last_n n l `suffix_of` l.
Proof. apply suffix_drop. Qed.

Lemma last_n_app_length {A} (l1 l2 : list A) :
  last_n (length l2) (l1 ++ l2) = l2.
Proof.
  unfold last_n. rewrite length_app.
  replace (length l1 + length l2 - length l2)%nat with (length l1) by lia.
  by rewrite drop_app_length.
Qed.

Lemma analyze_session_patterns_history (self : CrisisDetectionSystem)
    (session_id : string) (current_score : CombinedScore) (now : Z) :
  (_analyze_session_patterns self session_id current_score now).2
  = with_history self
      (<[session_id := next_history self session_id current_score now]>
         (session_history self)).
Proof.
  unfold _analyze_session_patterns, next_history.
  assert (Hold : forall (h : gmap string (list SessionRecord)),
            default [] ((if bool_decide (session_id ∈ dom h) then h
                         else <[session_id := []]> h) !! session_id)
            = default [] (h !! session_id)).
  { intros h. case_bool_decide as Hin; [done |].
    rewrite lookup_insert_eq. apply not_elem_of_dom in Hin. by rewrite Hin. }
  assert (Hins : forall (h : gmap string (list SessionRecord)) x,
            <[session_id := x]> (if bool_decide (session_id ∈ dom h) then h
                                 else <[session_id := []]> h)
            = <[session_id := x]> h).
  { intros h x. case_bool_decide; [done |]. by rewrite insert_insert_eq. }
  cbv zeta. rewrite !lookup_insert_eq, !insert_insert_eq, Hold, Hins. simpl.
  by repeat match goal with |- context [if ?b then _ else _] => destruct b end.
Qed.

Lemma analyze_session_patterns_risk (self : CrisisDetectionSystem)
    (session_id : string) (current_score : CombinedScore) (now : Z) :
  let history := next_history self session_id current_score now in
  (_analyze_session_patterns self session_id current_score now).1
  = if (3 <=? length history)%nat
       && all_increasing (score <$> last_n 3 history)
    then 0.5
    else if (2 <=? length (filter (fun entry =>
                             Qlt_bool 1.0 (score entry) = true) history))%nat
         then 0.3 else 0.0.
Proof.
  unfold _analyze_session_patterns, next_history.
  assert (Hold : forall (h : gmap string (list SessionRecord)),
            default [] ((if bool_decide (session_id ∈ dom h) then h
                         else <[session_id := []]> h) !! session_id)
            = default [] (h !! session_id)).
  { intros h. case_bool_decide as Hin; [done |].
    rewrite lookup_insert_eq. apply not_elem_of_dom in Hin. by rewrite Hin. }
  cbv zeta. rewrite !lookup_insert_eq, Hold. simpl.
  by repeat match goal with |- context [if ?b then _ else _] => destruct b end.
Qed.

(** The test of the code on the last three scores is the trend rule. *)
Lemma escalating_trend_code (history : list SessionRecord) :
  (3 <=? length history)%nat && all_increasing (score <$> last_n 3 history)
  = escalating_trend history.
Proof.
  unfold escalating_trend.
  rewrite <- (reverse_involutive history) at 1 2.
  destruct (reverse history) as [| c [| b [| a rest]]]; try done.
  rewrite !reverse_cons, <- !app_assoc.
  change (reverse rest ++ [a] ++ [b] ++ [c]) with (reverse rest ++ [a; b; c]).
  replace (3 <=? length (reverse rest ++ [a; b; c]))%nat with true
    by (symmetry; apply Nat.leb_le; rewrite length_app; simpl; lia).
  rewrite (last_n_app_length (reverse rest) [a; b; c] : last_n 3 _ = _).
  unfold all_increasing. simpl.
  rewrite !Qlt_bool_decide, andb_true_r. symmetry. apply bool_decide_and_andb.
Qed.

Lemma escalating_trend_spec (history : list SessionRecord) :
  escalating_trend history = true <->
  exists earlier a b c,
    history = earlier ++ [a; b; c] ∧ score a < score b ∧ score b < score c.
Proof.
  unfold escalating_trend. split.
  - destruct (reverse history) as [| c [| b [| a rest]]] eqn:E; try done.
    intros H. apply bool_decide_eq_true in H.
    exists (reverse rest), a, b, c. split; [| done].
    rewrite <- (reverse_involutive history), E.
    by rewrite !reverse_cons, <- !app_assoc.
  - intros (earlier & a & b & c & -> & H).
    rewrite reverse_app. simpl. by apply bool_decide_eq_true.
Qed.

Lemma persistent_signal_code (history : list SessionRecord) :
  (2 <=? length (filter (fun entry => Qlt_bool 1.0 (score entry) = true)
                        history))%nat
  = persistent_signal history.
Proof.
  unfold persistent_signal.
  replace (filter (fun entry => Qlt_bool 1.0 (score entry) = true) history)
    with (filter (fun r => (1 < score r)%Q) history).
  - destruct (2 <=? _)%nat eqn:E; symmetry.
    + apply bool_decide_eq_true. by apply Nat.leb_le.
    + apply bool_decide_eq_false. apply Nat.leb_gt in E. lia.
  - apply list_filter_iff. intros r. rewrite Qlt_bool_iff.
    assert (E : 1.0 == 1) by reflexivity. by rewrite E.
Qed.

(** C3: for every turn that reaches the session tracker, with [history]
    the session's records after the current one has been appended and the
    list cut to its last 10, the risk is 0.5 when [history] has at least 3
    records and the scores of its last 3 are strictly increasing,
    otherwise 0.3 when at least 2 records of [history] have a score above
    1.0, otherwise 0.0; the first rule that matches decides, and the risk
    is 0.5 only if the last three scores are strictly increasing. *)
Theorem analyze_session_patterns_rules (self : CrisisDetectionSystem)
    (session_id : string) (current_score : CombinedScore) (now : Z) :
  let history :=
    last_n 10 (default [] (session_history self !! session_id)
               ++ [mkSessionRecord now (total_score current_score)
                                   (combined_types current_score)]) in
  let '(risk, self') :=
    _analyze_session_patterns self session_id current_score now in
  session_history self' !! session_id = Some history
  ∧ risk = session_risk history
  ∧ (risk = 0.5 <->
     exists earlier a b c,
       history = earlier ++ [a; b; c]
       ∧ score a < score b ∧ score b < score c).
Proof.
  intros history.
  pose proof (analyze_session_patterns_history self session_id current_score now)
    as Hstate.
  pose proof (analyze_session_patterns_risk self session_id current_score now)
    as Hrisk.
  destruct (_analyze_session_patterns self session_id current_score now)
    as [risk self'].
  cbv zeta in Hrisk. cbn [fst snd] in Hstate, Hrisk.
  fold (next_history self session_id current_score now) in history.
  rewrite escalating_trend_code, persistent_signal_code in Hrisk.
  fold history in Hrisk.
  assert (Hspec : risk = session_risk history) by done.
  split; [| split; [done |]].
  - rewrite Hstate. simpl. by rewrite lookup_insert_eq.
  - rewrite <- escalating_trend_spec, Hspec. unfold session_risk. simpl.
    destruct (escalating_trend history); [done |].
    destruct (persistent_signal history); split; done.
Qed.

Lemma analyze_session_patterns_bounded (self : CrisisDetectionSystem)
    (session_id : string) (current_score : CombinedScore) (now : Z) :
  bounded self ->
  bounded (_analyze_session_patterns self session_id current_score now).2.
Proof.
  intros Hb. rewrite analyze_session_patterns_history. unfold bounded. simpl.
  apply map_Forall_insert_2; [| done].
  unfold next_history. rewrite length_last_n. lia.
Qed.

(** The instance a call leaves behind. *)
Lemma assess_crisis_level_state (self : CrisisDetectionSystem) (text : string)
    (session_id : option string) (now : Z) :
  (assess_crisis_level self text session_id now).2 = self
  ∨ exists id current_score,
      truthy session_id = Some id
      ∧ (assess_crisis_level self text session_id now).2
        = (_analyze_session_patterns self id current_score now).2.
Proof.
  unfold assess_crisis_level.
  destruct (_check_crisis_patterns self (lower text)) as [pattern_results | e];
    [| by left].
  destruct (truthy session_id) as [id |] eqn:E; [| by left].
  right.
  exists id, (_calculate_combined_score
                (_check_crisis_keywords self (lower text)) pattern_results
                (_check_omani_expressions self (lower text))).
  split; [done |].
  by destruct (_analyze_session_patterns _ _ _ _).
Qed.

Lemma assess_crisis_level_bounded (self : CrisisDetectionSystem)
    (text : string) (session_id : option string) (now : Z) :
  bounded self -> bounded (assess_crisis_level self text session_id now).2.
Proof.
  intros Hb.
  destruct (assess_crisis_level_state self text session_id now)
    as [-> | (id & current_score & _ & ->)]; [done |].
  by apply analyze_session_patterns_bounded.
Qed.

Lemma run_turns_bounded (self : CrisisDetectionSystem) (turns : list turn) :
  bounded self -> bounded (run_turns self turns).
Proof.
  revert self. induction turns as [| [[text session_id] now] turns IH];
    intros self Hb; [done |].
  apply IH. by apply assess_crisis_level_bounded.
Qed.

(** C6: after any number of assessed turns, for any session ids, no stored
    history holds more than 10 records; a tracked turn stores, for its
    session only, the old history with one record appended, cut to its
    last 10 records. *)
Theorem session_history_bounded (turns : list turn) :
  map_Forall (fun _ history => (length history <= 10)%nat)
             (session_history (run_turns __init__ turns))
  ∧ (forall self session_id current_score now,
       let appended :=
         default [] (session_history self !! session_id)
         ++ [mkSessionRecord now (total_score current_score)
                             (combined_types current_score)] in
       session_history
         (_analyze_session_patterns self session_id current_score now).2
       = <[session_id := last_n 10 appended]> (session_history self)
       ∧ last_n 10 appended `suffix_of` appended
       ∧ length (last_n 10 appended) = (10 `min` length appended)%nat).
Proof.
  split.
  - apply (run_turns_bounded __init__ turns). apply map_Forall_empty.
  - intros self session_id current_score now appended.
    rewrite analyze_session_patterns_history. cbn [with_history session_history].
    split; [done |]. split; [apply last_n_suffix | apply length_last_n].
Qed.

(** ** Resource resolver *)

Lemma map_subseteq_check (m1 m2 : gmap string string) :
  map_Forall (fun name contact => m2 !! name = Some contact) m1 -> m1 ⊆ m2.
Proof. intros H. apply map_subseteq_spec. exact H. Qed.

Lemma update_lookup {V} (d new : gmap string V) (key : string) :
  update d new !! key
  = match new !! key with Some v => Some v | None => d !! key end.
Proof.
  unfold update. rewrite lookup_union.
  destruct (new !! key), (d !! key); done.
Qed.

Lemma update_dom {V} (d new : gmap string V) : dom d ⊆ dom (update d new).
Proof. unfold update. rewrite dom_union_L. set_solver. Qed.

Lemma needs_health_contacts_code (crisis_types : list string) :
  existsb (fun t => bool_decide (t ∈ crisis_types))
          ["suicide"; "self_harm"; "severe_depression"]
  = bool_decide (needs_health_contacts crisis_types).
Proof.
  unfold needs_health_contacts. simpl.
  rewrite !bool_decide_or_orb. by rewrite orb_false_r.
Qed.

(** Equality of a returned bundle with an expected one, by computation. *)
Lemma result_eq_check (r : result (gmap string string))
    (m : gmap string string) :
  match r with Ok m' => bool_decide (m' = m) | Raise _ => false end = true ->
  r = Ok m.
Proof.
  destruct r as [m' | e]; [| done].
  intros H. apply bool_decide_eq_true in H. by subst.
Qed.

(** The bundle for the static directory: the entry written for violence
    is already there. *)
Lemma get_relevant_resources_static
    (history : gmap string (list SessionRecord)) (crisis_types : list string) :
  _get_relevant_resources (with_history __init__ history) crisis_types
  = Ok (if bool_decide (needs_health_contacts crisis_types)
        then update (update (update (update ∅ (contacts "emergency"))
                                    (contacts "mental_health"))
                            (contacts "hospitals"))
                    (contacts "support")
        else update (update ∅ (contacts "emergency")) (contacts "support")).
Proof.
  unfold _get_relevant_resources. rewrite needs_health_contacts_code.
  change (emergency_resources (with_history __init__ history))
    with _build_emergency_resources.
  destruct (bool_decide (needs_health_contacts crisis_types)),
    (bool_decide ("violence" ∈ crisis_types));
    apply result_eq_check; vm_compute; reflexivity.
Qed.

(** C7: for every list of detected types the resolver returns one flat
    mapping from names to contacts; it holds the general emergency
    contacts and the support contacts always, the mental-health and the
    hospital contacts exactly when suicide, self_harm or severe_depression
    is detected, the police contact when violence is detected, and nothing
    else; an addition to a mapping removes no entry, and on a key that is
    already there the added contact replaces the old one. *)
Theorem get_relevant_resources_bundle
    (history : gmap string (list SessionRecord)) (crisis_types : list string) :
  (exists bundle,
      _get_relevant_resources (with_history __init__ history) crisis_types
      = Ok bundle
      ∧ contacts "emergency" ⊆ bundle
      ∧ contacts "support" ⊆ bundle
      ∧ (needs_health_contacts crisis_types <->
         contacts "mental_health" ⊆ bundle ∧ contacts "hospitals" ⊆ bundle)
      ∧ ("violence" ∈ crisis_types -> bundle !! "police" = Some "999")
      ∧ dom bundle
        = dom (contacts "emergency") ∪ dom (contacts "support")
          ∪ (if decide (needs_health_contacts crisis_types)
             then dom (contacts "mental_health") ∪ dom (contacts "hospitals")
             else ∅)
      ∧ bundle !! "general_emergency" = Some "999")
  ∧ (forall d new : gmap string string,
       dom d ⊆ dom (update d new)
       ∧ forall name,
           update d new !! name
           = match new !! name with
             | Some contact => Some contact
             | None => d !! name
             end).
Proof.
  split; [| intros d new; split; [apply update_dom | apply update_lookup]].
  eexists. split; [apply get_relevant_resources_static |].
  destruct (decide (needs_health_contacts crisis_types)) as [Hyes | Hno].
  - rewrite bool_decide_eq_true_2 by done.
    repeat split;
      try (apply map_subseteq_check, (bool_decide_unpack _); by vm_compute);
      try done; by vm_compute.
  - rewrite bool_decide_eq_false_2 by done.
    split; [apply map_subseteq_check, (bool_decide_unpack _); by vm_compute |].
    split; [apply map_subseteq_check, (bool_decide_unpack _); by vm_compute |].
    split; [| split; [by vm_compute | split; by vm_compute]].
    split; [done |]. intros [Hsub _]. exfalso.
    assert (Hin : contacts "mental_health" !! "crisis_intervention"
                  = Some "قسم الطوارئ النفسية") by by vm_compute.
    apply (lookup_weaken _ _ _ _ Hin) in Hsub. by vm_compute in Hsub.
Qed.

(** ** Assessment *)

(** The matchers and the resolver read the tables only. *)
Lemma assess_crisis_level_no_session (self : CrisisDetectionSystem)
    (history : gmap string (list SessionRecord)) (text : string) (now now' : Z) :
  (assess_crisis_level (with_history self history) text None now).1
  = (assess_crisis_level self text None now').1
  ∧ (assess_crisis_level self text None now).2 = self.
Proof.
  unfold assess_crisis_level.
  change (_check_crisis_patterns (with_history self history) (lower text))
    with (_check_crisis_patterns self (lower text)).
  destruct (_check_crisis_patterns self (lower text)); done.
Qed.

Lemma assess_crisis_level_no_session_risk (self : CrisisDetectionSystem)
    (text : string) (now : Z) (a : Assessment) :
  (assess_crisis_level self text None now).1 = Ok a ->
  session_pattern_risk a = 0.
Proof.
  unfold assess_crisis_level.
  destruct (_check_crisis_patterns self (lower text)); [| done].
  cbn [truthy].
  destruct (_get_relevant_resources self _); [| done].
  cbn [fst mbind result_bind]. by intros [= <-].
Qed.


Lemma assess_crisis_level_static
    (history : gmap string (list SessionRecord)) (text : string)
    (session_id : option string) (now : Z) :
  exists a self',
    assess_crisis_level (with_history __init__ history) text session_id now
    = (Ok a, self')
    ∧ _get_relevant_resources (with_history __init__ history) (detected_types a)
      = Ok (resources a).
Proof.
  unfold assess_crisis_level.
  destruct (check_crisis_patterns_static history (lower text))
    as (pattern_results & -> & _).
  set (current_score := _calculate_combined_score _ _ _).
  destruct (truthy session_id) as [id |].
  - pose proof (analyze_session_patterns_history (with_history __init__ history)
                  id current_score now) as Hstate.
    destruct (_analyze_session_patterns _ id current_score now)
      as [risk self']. cbn [snd] in Hstate. subst self'.
    change (with_history (with_history __init__ history) ?h)
      with (with_history __init__ h).
    eexists _, _. rewrite get_relevant_resources_static.
    split; [reflexivity |]. apply get_relevant_resources_static.
  - eexists _, _. rewrite get_relevant_resources_static.
    split; [reflexivity |]. apply get_relevant_resources_static.
Qed.

(** C9: for every input text (any session id, any earlier turns) the
    assessment returns a bundle that maps "police" to "999"; the general
    emergency contacts hold that entry, and the bundle is the same with and
    without violence among the detected types. *)
Theorem police_contact_always_present
    (history : gmap string (list SessionRecord)) (text : string)
    (session_id : option string) (now : Z) :
  (exists a,
      (assess_crisis_level (with_history __init__ history) text session_id now).1
      = Ok a
      ∧ resources a !! "police" = Some "999")
  ∧ contacts "emergency" !! "police" = Some "999"
  ∧ (forall crisis_types,
       _get_relevant_resources (with_history __init__ history) crisis_types
       = _get_relevant_resources (with_history __init__ history)
           (filter (fun t => t ≠ "violence") crisis_types)).
Proof.
  split; [| split; [by vm_compute |]].
  - destruct (assess_crisis_level_static history text session_id now)
      as (a & self' & -> & Hres).
    exists a. split; [done |].
    rewrite get_relevant_resources_static in Hres. injection Hres as <-.
    by destruct (bool_decide _); vm_compute.
  - intros crisis_types. rewrite !get_relevant_resources_static.
    assert (Hsame : bool_decide (needs_health_contacts crisis_types)
              = bool_decide (needs_health_contacts
                  (filter (fun t => t ≠ "violence") crisis_types))).
    { apply bool_decide_ext. unfold needs_health_contacts.
      rewrite !list_elem_of_filter. intuition congruence. }
    by rewrite Hsame.
Qed.

(** C10: for every input text, a call with the empty string as session id
    is the call without a session id: same result, the session map and the
    instance are unchanged, and the session risk is 0. *)
Theorem assess_crisis_level_empty_session_id (self : CrisisDetectionSystem)
    (text : string) (now : Z) :
  assess_crisis_level self text (Some "") now
  = assess_crisis_level self text None now
  ∧ (assess_crisis_level self text (Some "") now).2 = self
  ∧ session_history (assess_crisis_level self text (Some "") now).2
    = session_history self
  ∧ (forall a, (assess_crisis_level self text (Some "") now).1 = Ok a ->
               session_pattern_risk a = 0).
Proof.
  assert (Hsame : assess_crisis_level self text (Some "") now
                  = assess_crisis_level self text None now) by reflexivity.
  destruct (assess_crisis_level_no_session self (session_history self)
              text now now) as [_ Hstate].
  pose proof (assess_crisis_level_no_session_risk self text now) as Hrisk.
  rewrite Hsame, Hstate.
  by repeat split.
Qed.

(** ** The properties at concrete inputs *)


Example sample_text_assessment :
  exists a,
    (assess_crisis_level __init__ sample_text None 0).1 = Ok a
    ∧ crisis_level a = "high"
    ∧ crisis_score a == 1.23
    ∧ detected_types a = ["suicide"]
    ∧ requires_escalation a = true
    ∧ requires_immediate_intervention a = false.
Proof. eexists. split; [by vm_compute |]. by vm_compute. Qed.

(** The thresholds are inclusive: at 2.0 with suicide detected the level
    is CRITICAL, just below it is HIGH; 2.6 with violence is CRITICAL. *)
Example level_at_the_boundaries :
  _determine_crisis_level (fused_score 3.0 []) = CRITICAL
  ∧ _determine_crisis_level (fused_score 2.999 []) = HIGH
  ∧ _determine_crisis_level (fused_score 2.0 ["suicide"]) = CRITICAL
  ∧ _determine_crisis_level (fused_score 1.999 ["suicide"]) = HIGH
  ∧ _determine_crisis_level (fused_score 2.5 ["violence"]) = CRITICAL
  ∧ _determine_crisis_level (fused_score 2.6 ["violence"]) = CRITICAL
  ∧ _determine_crisis_level (fused_score 2.0 ["psychosis"]) = HIGH
  ∧ _determine_crisis_level (fused_score 1.0 ["self_harm"]) = HIGH
  ∧ _determine_crisis_level (fused_score 1.0 ["psychosis"]) = MEDIUM
  ∧ _determine_crisis_level (fused_score 0.5 ["severe_depression"]) = MEDIUM
  ∧ _determine_crisis_level (fused_score 0.499 ["severe_depression"]) = LOW
  ∧ _determine_crisis_level (fused_score 0.9 ["violence"]) = LOW.
Proof. by vm_compute. Qed.

Example session_risk_scenarios :
  session_risks __init__ "s" [0.2; 0.6; 1.1] = [0.0; 0.0; 0.5]
  ∧ session_risks __init__ "s" [1.2; 0.3; 1.5] = [0.0; 0.0; 0.3]
  ∧ session_risks __init__ "s" [1.5; 1.5; 1.5] = [0.0; 0.3; 0.3]
  ∧ session_risks __init__ "s" [0.3; 0.2; 0.1] = [0.0; 0.0; 0.0].
Proof. by vm_compute. Qed.

Example eleven_turns_keep_ten :
  let turns := replicate 11 (sample_text, Some "s", 0%Z) in
  length <$> session_history (run_turns __init__ turns) !! "s" = Some 10%nat.
Proof. by vm_compute. Qed.

Example plain_text_is_low :
  exists a,
    (assess_crisis_level __init__ "أشعر بالقلق من الامتحان" None 0).1 = Ok a
    ∧ crisis_level a = "low" ∧ crisis_score a == 0
    ∧ detected_types a = [] ∧ requires_escalation a = false.
Proof. eexists. split; [by vm_compute |]. by vm_compute. Qed.

Example composer_lengths :
  String.length (_generate_critical_response ["suicide"]) = 343%nat
  ∧ String.length (_generate_critical_response ["violence"]) = 388%nat
  ∧ String.length (_generate_critical_response []) = 382%nat
  ∧ String.length (_generate_high_response []) = 426%nat
  ∧ String.length (_generate_medium_response []) = 428%nat
  ∧ String.length (_generate_low_response []) = 212%nat
  ∧ contains "999" (_generate_high_response []) = false
  ∧ contains "999" (_generate_medium_response []) = false
  ∧ contains "999" (_generate_low_response []) = false
  ∧ contains "999" (_generate_critical_response []) = true.
Proof. by vm_compute. Qed.

(** * Further properties *)

(** ** The assessment record *)

#[global] Instance level_value_inj : Inj (=) (=) level_value.
Proof. intros [] [] H; (done || by vm_compute in H). Qed.

Lemma get_relevant_resources_with_history (self : CrisisDetectionSystem)
    (history : gmap string (list SessionRecord)) (crisis_types : list string) :
  _get_relevant_resources (with_history self history) crisis_types
  = _get_relevant_resources self crisis_types.
Proof. reflexivity. Qed.

(** What a call returns once the pattern matcher has returned. *)
Lemma assess_crisis_level_ok (self : CrisisDetectionSystem) (text : string)
    (session_id : option string) (now : Z)
    (pattern_results : Results (list string)) :
  _check_crisis_patterns self (lower text) = Ok pattern_results ->
  let current_score := fuse self text pattern_results in
  let tracked :=
    match truthy session_id with
    | Some id => _analyze_session_patterns self id current_score now
    | None => (0, self)
    end in
  assess_crisis_level self text session_id now
  = (resources ← _get_relevant_resources self (combined_types current_score);
     Ok (mkAssessment
           (level_value (_determine_crisis_level current_score))
           (total_score current_score)
           (combined_types current_score)
           (bool_decide (_determine_crisis_level current_score
                         ∈ [HIGH; CRITICAL]))
           (bool_decide (_determine_crisis_level current_score = CRITICAL))
           tracked.1
           resources),
     tracked.2).
Proof.
  intros Hp current_score tracked. unfold assess_crisis_level. rewrite Hp.
  fold (fuse self text pattern_results). fold current_score.
  subst tracked. destruct (truthy session_id) as [id |]; [| done].
  pose proof (analyze_session_patterns_history self id current_score now) as H.
  destruct (_analyze_session_patterns self id current_score now)
    as [risk self']. cbn [fst snd] in *. subst self'.
  by rewrite get_relevant_resources_with_history.
Qed.

(** X1: in every assessment that is returned, the level is the one the
    ordered threshold rules give for the returned score and detected
    types; escalation is required exactly at the levels high and
    critical, immediate intervention exactly at the level critical, so
    immediate intervention never comes without escalation. *)
Theorem assessment_fields_consistent (self : CrisisDetectionSystem)
    (text : string) (session_id : option string) (now : Z) :
  match (assess_crisis_level self text session_id now).1 with
  | Raise _ => True
  | Ok a =>
      crisis_level a
      = level_value (first_match (level_rules (crisis_score a)
                                              (detected_types a)) LOW)
      ∧ (requires_escalation a = true <->
         crisis_level a = "high" ∨ crisis_level a = "critical")
      ∧ (requires_immediate_intervention a = true <->
         crisis_level a = "critical")
      ∧ (requires_immediate_intervention a = true ->
         requires_escalation a = true)
  end.
Proof.
  destruct (_check_crisis_patterns self (lower text)) as [pr | e] eqn:Hp.
  - rewrite (assess_crisis_level_ok _ _ _ _ _ Hp). cbn [fst].
    destruct (_get_relevant_resources self _) as [res | e]; [| done].
    cbn [mbind result_bind crisis_level crisis_score detected_types
         requires_escalation requires_immediate_intervention].
    rewrite <- determine_crisis_level_as_rule_list.
    destruct (_determine_crisis_level (fuse self text pr));
      by vm_compute; intuition congruence.
  - unfold assess_crisis_level. by rewrite Hp.
Qed.

(** ** Lexicon and dialect matchers, continued *)

Lemma scan_entries_positive (weight : Q) (entries : list string)
    (text : string) :
  0 < weight ->
  Qlt_bool 0 (scan_entries weight entries text).1
  = bool_decide (matching entries text ≠ []).
Proof.
  intros Hw. rewrite scan_entries_matching. cbn [fst].
  destruct (matching entries text) as [| entry found] eqn:E.
  - by vm_compute.
  - rewrite bool_decide_eq_true_2 by done. apply Qlt_bool_iff.
    rewrite foldl_add_weight.
    assert (0 < inject_Z (Z.of_nat (length (entry :: found))) * weight).
    { apply Qmult_lt_0_compat; [| done]. unfold Qlt. simpl. lia. }
    lra.
Qed.

(** The types and the entries a table matcher reports, in table order. *)
Lemma check_table_reports (weight : Q)
    (table : list (CrisisType * list string)) (text : string) :
  0 < weight ->
  types (check_table weight table text)
  = type_value <$> (filter (fun entry => matching entry.2 text ≠ []) table).*1
  ∧ found (check_table weight table text)
    = concat ((fun entry => matching entry.2 text) <$> table).
Proof.
  intros Hw.
  induction table as [| [crisis_type entries] table [IHt IHf]] using rev_ind.
  - done.
  - rewrite check_table_snoc. cbv zeta.
    rewrite (scan_entries_positive _ _ _ Hw), scan_entries_matching.
    rewrite filter_app, !fmap_app, concat_app. csimpl.
    rewrite filter_cons, filter_nil. cbn [snd].
    case_bool_decide as Hm.
    + rewrite decide_True by done. cbn [types found]. csimpl.
      rewrite app_nil_r. by rewrite IHt, IHf.
    + rewrite Hm. rewrite decide_False by (intros H; by apply H).
      csimpl. by rewrite !app_nil_r.
Qed.

Lemma matching_occurs (entries : list string) (text entry : string) :
  entry ∈ matching entries text <->
  entry ∈ entries ∧ contains (lower entry) text = true.
Proof. unfold matching. rewrite list_elem_of_filter. tauto. Qed.

(** X2: the keyword matcher and the dialect matcher report the types of
    their table that have at least one entry occurring in the text, in
    table order and each once per table row, and the entries that occur,
    type by type in table order and in the order of the type's list;
    every reported entry occurs in the text when lower-cased. *)
Theorem matchers_report_in_table_order (self : CrisisDetectionSystem)
    (text : string) :
  let hit := fun entry : CrisisType * list string =>
               matching entry.2 text ≠ [] in
  types (_check_crisis_keywords self text)
  = type_value <$> (filter hit (crisis_keywords self)).*1
  ∧ found (_check_crisis_keywords self text)
    = concat ((fun entry => matching entry.2 text) <$> crisis_keywords self)
  ∧ types (_check_omani_expressions self text)
    = type_value <$> (filter hit (omani_crisis_expressions self)).*1
  ∧ found (_check_omani_expressions self text)
    = concat ((fun entry => matching entry.2 text)
              <$> omani_crisis_expressions self)
  ∧ (forall keyword,
       keyword ∈ found (_check_crisis_keywords self text)
       ∨ keyword ∈ found (_check_omani_expressions self text) ->
       contains (lower keyword) text = true).
Proof.
  intros hit.
  destruct (check_table_reports 1 (crisis_keywords self) text) as [Ht Hf];
    [done |].
  destruct (check_table_reports 1.2 (omani_crisis_expressions self) text)
    as [Ht' Hf']; [done |].
  repeat split; try done.
  intros keyword.
  unfold _check_crisis_keywords, _check_omani_expressions.
  rewrite Hf, Hf'.
  intros [H | H]; apply list_elem_of_In, in_concat in H as (l & Hl & Hin);
    apply list_elem_of_In, list_elem_of_fmap in Hl as (entry & -> & _);
    apply list_elem_of_In in Hin;
    by apply matching_occurs in Hin as [_ ?].
Qed.


(** ** Pattern matcher, continued *)







(** ** Score fusion, continued *)






(** The types and the total of a fused score. *)
Lemma fused_types (keyword_results : Results string)
    (pattern_results : Results (list string))
    (dialect_results : Results string) (t : string) :
  t ∈ combined_types (_calculate_combined_score keyword_results
                        pattern_results dialect_results)
  <-> t ∈ types keyword_results ∨ t ∈ types pattern_results
      ∨ t ∈ types dialect_results.
Proof.
  unfold _calculate_combined_score. simpl.
  rewrite elem_of_elements, !elem_of_union, !elem_of_list_to_set.
  rewrite elem_of_empty. tauto.
Qed.

Lemma fused_total (keyword_results : Results string)
    (pattern_results : Results (list string))
    (dialect_results : Results string) :
  let fused := _calculate_combined_score keyword_results pattern_results
                                         dialect_results in
  NoDup (combined_types fused)
  ∧ total_score fused
    == Qsum (combined_of keyword_results pattern_results dialect_results
             <$> combined_types fused).
Proof.
  intros fused.
  assert (Hnd : NoDup (combined_types fused))
    by (subst fused; simpl; apply NoDup_elements).
  split; [done |].
  subst fused. unfold _calculate_combined_score in *. simpl in *.
  rewrite (sum_values_foldl_insert _ _ Hnd).
  apply Qsum_fmap_ext. intros t. unfold combined_of. ring.
Qed.




(** ** Level classifier, continued *)

(** The levels from a given one upwards, by the rules that reach them. *)
Lemma level_rank_rules (combined_score : CombinedScore) :
  let total := total_score combined_score in
  let detected := combined_types combined_score in
  let critical :=
    3 <= total ∨ ("suicide" ∈ detected ∧ 2 <= total)
    ∨ ("violence" ∈ detected ∧ 2.5 <= total) in
  let high :=
    2 <= total
    ∨ (("suicide" ∈ detected ∨ "self_harm" ∈ detected) ∧ 1 <= total) in
  let medium :=
    1 <= total ∨ ("severe_depression" ∈ detected ∧ 0.5 <= total) in
  let rank := level_rank (_determine_crisis_level combined_score) in
  ((3 <= rank)%nat <-> critical)
  ∧ ((2 <= rank)%nat <-> critical ∨ high)
  ∧ ((1 <= rank)%nat <-> critical ∨ high ∨ medium).
Proof.
  intros total detected critical high medium rank.
  subst rank. rewrite determine_crisis_level_as_rule_list.
  fold total detected. unfold level_rules, first_match.
  subst critical high medium.
  destruct (decide (3 <= total)), (decide (2.5 <= total));
    try (exfalso; lra);
    destruct (decide (2 <= total)); try (exfalso; lra);
    destruct (decide (1 <= total)); try (exfalso; lra);
    destruct (decide (0.5 <= total)); try (exfalso; lra);
    destruct (decide ("suicide" ∈ detected)), (decide ("violence" ∈ detected)),
      (decide ("self_harm" ∈ detected)),
      (decide ("severe_depression" ∈ detected));
    settle_guards; cbn [level_rank];
    (split; [| split]); split; intros; first [lia | tauto].
Qed.

Section rules_monotone.
Context (total total' : Q) (detected detected' : list string).
Context (Hle : total <= total').
Context (Hsub : forall t, t ∈ detected -> t ∈ detected').

Lemma critical_monotone :
  3 <= total ∨ ("suicide" ∈ detected ∧ 2 <= total)
  ∨ ("violence" ∈ detected ∧ 2.5 <= total) ->
  3 <= total' ∨ ("suicide" ∈ detected' ∧ 2 <= total')
  ∨ ("violence" ∈ detected' ∧ 2.5 <= total').
Proof using Hle Hsub.
  intros [? | [[? ?] | [? ?]]].
  - left. lra.
  - right; left. split; [by apply Hsub | lra].
  - right; right. split; [by apply Hsub | lra].
Qed.

Lemma high_monotone :
  2 <= total
  ∨ (("suicide" ∈ detected ∨ "self_harm" ∈ detected) ∧ 1 <= total) ->
  2 <= total'
  ∨ (("suicide" ∈ detected' ∨ "self_harm" ∈ detected') ∧ 1 <= total').
Proof using Hle Hsub.
  intros [? | [[? | ?] ?]].
  - left. lra.
  - right. split; [left; by apply Hsub | lra].
  - right. split; [right; by apply Hsub | lra].
Qed.

Lemma medium_monotone :
  1 <= total ∨ ("severe_depression" ∈ detected ∧ 0.5 <= total) ->
  1 <= total' ∨ ("severe_depression" ∈ detected' ∧ 0.5 <= total').
Proof using Hle Hsub.
  intros [? | [? ?]].
  - left. lra.
  - right. split; [by apply Hsub | lra].
Qed.
End rules_monotone.

(** X6: the level classifier is monotone: a fused result whose total is
    at least that of another and whose types include all types of the
    other never gets a lower level (low < medium < high < critical). *)
Theorem determine_crisis_level_monotone (lower_score higher_score : CombinedScore) :
  total_score lower_score <= total_score higher_score ->
  (forall t, t ∈ combined_types lower_score -> t ∈ combined_types higher_score) ->
  (level_rank (_determine_crisis_level lower_score)
   <= level_rank (_determine_crisis_level higher_score))%nat.
Proof.
  intros Hle Hsub.
  destruct (level_rank_rules lower_score) as (H3 & H2 & H1).
  destruct (level_rank_rules higher_score) as (H3' & H2' & H1').
  cbv zeta in *.
  pose proof (critical_monotone _ _ _ _ Hle Hsub) as Hc.
  pose proof (high_monotone _ _ _ _ Hle Hsub) as Hh.
  pose proof (medium_monotone _ _ _ _ Hle Hsub) as Hm.
  assert (Hrank : forall n : nat,
            (n <= 3)%nat ->
            (n <= level_rank (_determine_crisis_level lower_score))%nat ->
            (n <= level_rank (_determine_crisis_level higher_score))%nat).
  { intros [| [| [| [| n]]]] Hn Hlow; try lia.
    - apply H1'. apply H1 in Hlow. clear - Hlow Hc Hh Hm. tauto.
    - apply H2'. apply H2 in Hlow. clear - Hlow Hc Hh. tauto.
    - apply H3'. apply H3 in Hlow. clear - Hlow Hc. tauto. }
  apply Hrank; [| done].
  by destruct (_determine_crisis_level lower_score); cbn; lia.
Qed.

Lemma determine_crisis_level_monotone_witness :
  (total_score (fused_score 0.9 ["violence"])
   <= total_score (fused_score 2.5 ["violence"; "suicide"])
   ∧ forall t, t ∈ combined_types (fused_score 0.9 ["violence"]) ->
               t ∈ combined_types (fused_score 2.5 ["violence"; "suicide"]))
  ∧ (level_rank (_determine_crisis_level (fused_score 0.9 ["violence"]))
     <= level_rank (_determine_crisis_level
                      (fused_score 2.5 ["violence"; "suicide"])))%nat.
Proof.
  assert (Hle : total_score (fused_score 0.9 ["violence"])
                <= total_score (fused_score 2.5 ["violence"; "suicide"]))
    by (by vm_compute).
  assert (Hsub : forall t, t ∈ combined_types (fused_score 0.9 ["violence"]) ->
                   t ∈ combined_types (fused_score 2.5 ["violence"; "suicide"])).
  { intros t. simpl. rewrite !elem_of_cons. tauto. }
  split; [by split |].
  exact (determine_crisis_level_monotone _ _ Hle Hsub).
Defined.

(** ** The assessment of the static instance *)

Lemma Qsum_positive {A} (f : A -> Q) (l : list A) :
  (forall x, x ∈ l -> 0 < f x) ->
  0 <= Qsum (f <$> l) ∧ (l ≠ [] -> 0 < Qsum (f <$> l)).
Proof.
  induction l as [| x l IH]; intros Hpos; csimpl.
  - split; [apply Qle_refl | done].
  - destruct IH as [IH0 _]; [intros y Hy; apply Hpos; by right |].
    pose proof (Hpos x (list_elem_of_here x l)).
    split; [lra | intros _; lra].
Qed.

Lemma fused_positive (keyword_results : Results string)
    (pattern_results : Results (list string))
    (dialect_results : Results string) (t : string) :
  well_formed keyword_results ->
  well_formed pattern_results ->
  well_formed dialect_results ->
  t ∈ combined_types (_calculate_combined_score keyword_results
                        pattern_results dialect_results) ->
  0 < combined_of keyword_results pattern_results dialect_results t.
Proof.
  intros Hk Hp Hd. rewrite fused_types.
  rewrite (well_formed_types _ Hk), (well_formed_types _ Hp),
    (well_formed_types _ Hd).
  pose proof (well_formed_nonneg _ Hk t).
  pose proof (well_formed_nonneg _ Hp t).
  pose proof (well_formed_nonneg _ Hd t).
  unfold combined_of. intros [? | [? | ?]]; lra.
Qed.

(** The fused score of a text on the static instance. *)
Lemma static_fused_score (history : gmap string (list SessionRecord))
    (text : string) :
  exists pattern_results,
    _check_crisis_patterns (with_history __init__ history) (lower text)
    = Ok pattern_results
    ∧ let fused := fuse (with_history __init__ history) text pattern_results in
      NoDup (combined_types fused)
      ∧ 0 <= total_score fused
      ∧ (total_score fused == 0 <-> combined_types fused = []).
Proof.
  destruct (check_crisis_patterns_static history (lower text))
    as (pattern_results & Hp & Hwp).
  exists pattern_results. split; [done |]. intros fused.
  pose proof (check_table_well_formed 1
                (crisis_keywords (with_history __init__ history)) (lower text))
    as Hwk.
  pose proof (check_table_well_formed 1.2
                (omani_crisis_expressions (with_history __init__ history))
                (lower text)) as Hwd.
  destruct (fused_total
              (_check_crisis_keywords (with_history __init__ history) (lower text))
              pattern_results
              (_check_omani_expressions (with_history __init__ history)
                                        (lower text))) as [Hnd Htotal].
  fold (fuse (with_history __init__ history) text pattern_results) in Hnd, Htotal.
  fold fused in Hnd, Htotal.
  destruct (Qsum_positive
              (combined_of
                 (_check_crisis_keywords (with_history __init__ history)
                                         (lower text))
                 pattern_results
                 (_check_omani_expressions (with_history __init__ history)
                                           (lower text)))
              (combined_types fused)) as [H0 Hpos].
  { intros t Ht. by apply fused_positive. }
  split; [done |]. rewrite Htotal. split; [done |].
  split.
  - intros Hz. destruct (combined_types fused) as [| t l] eqn:E; [done |].
    specialize (Hpos ltac:(done)). lra.
  - intros ->. reflexivity.
Qed.

Lemma level_low_without_score (combined_score : CombinedScore) :
  total_score combined_score < 0.5 ->
  _determine_crisis_level combined_score = LOW.
Proof.
  intros Hlt. destruct (level_rank_rules combined_score) as (_ & _ & H1).
  cbv zeta in H1.
  destruct (_determine_crisis_level combined_score); try done;
    exfalso; cbn [level_rank] in H1;
    (destruct H1 as [H1 _]; specialize (H1 ltac:(lia)));
    clear - H1 Hlt;
    destruct H1 as [[? | [[_ ?] | [_ ?]]] | [[? | [_ ?]] | [? | [_ ?]]]]; lra.
Qed.

(** X7: on the constructed instance, whatever its session history, every
    text gets an assessment (no error is raised); the detected types have
    no duplicates, the score is never negative and is zero exactly when
    nothing is detected, and then the level is low and neither flag is
    set. *)
Theorem crisis_score_zero_iff_nothing_detected
    (history : gmap string (list SessionRecord)) (text : string)
    (session_id : option string) (now : Z) :
  exists a,
    (assess_crisis_level (with_history __init__ history) text session_id now).1
    = Ok a
    ∧ NoDup (detected_types a)
    ∧ 0 <= crisis_score a
    ∧ (crisis_score a == 0 <-> detected_types a = [])
    ∧ (detected_types a = [] ->
       crisis_level a = "low" ∧ requires_escalation a = false
       ∧ requires_immediate_intervention a = false).
Proof.
  destruct (static_fused_score history text)
    as (pattern_results & Hp & Hnd & H0 & Hz).
  rewrite (assess_crisis_level_ok _ _ _ _ _ Hp). cbn [fst].
  rewrite get_relevant_resources_static. cbn [mbind result_bind].
  eexists. split; [reflexivity |].
  cbn [detected_types crisis_score crisis_level requires_escalation
       requires_immediate_intervention].
  split; [done |]. split; [done |]. split; [done |].
  intros Hnone. apply Hz in Hnone.
  rewrite level_low_without_score by (rewrite Hnone; reflexivity).
  repeat split.
Qed.

Lemma level_thresholds (combined_score : CombinedScore) :
  let total := total_score combined_score in
  let rank := level_rank (_determine_crisis_level combined_score) in
  (3 <= total -> (3 <= rank)%nat)
  ∧ ((3 <= rank)%nat -> 2 <= total)
  ∧ (2 <= total -> (2 <= rank)%nat)
  ∧ ((2 <= rank)%nat -> 1 <= total)
  ∧ (1 <= total -> (1 <= rank)%nat)
  ∧ ((1 <= rank)%nat -> 0.5 <= total).
Proof.
  destruct (level_rank_rules combined_score) as (H3 & H2 & H1).
  cbv zeta in *. repeat split.
  - intros H. apply H3. by left.
  - intros H. apply H3 in H. clear - H.
    destruct H as [? | [[_ ?] | [_ ?]]]; lra.
  - intros H. apply H2. right. by left.
  - intros H. apply H2 in H. clear - H.
    destruct H as [[? | [[_ ?] | [_ ?]]] | [? | [_ ?]]]; lra.
  - intros H. apply H1. right; right. by left.
  - intros H. apply H1 in H. clear - H.
    destruct H as [[? | [[_ ?] | [_ ?]]] | [[? | [_ ?]] | [? | [_ ?]]]]; lra.
Qed.

Lemma flags_by_rank (l : CrisisLevel) :
  bool_decide (l ∈ [HIGH; CRITICAL]) = (2 <=? level_rank l)%nat
  ∧ bool_decide (l = CRITICAL) = (3 <=? level_rank l)%nat
  ∧ (level_value l = "low" <-> level_rank l = 0%nat).
Proof. destruct l; repeat split; (done || by vm_compute). Qed.

(** X8: in every assessment that is returned, a score of 3 or more
    requires immediate intervention, which in turn needs a score of at
    least 2; a score of 2 or more requires escalation, which needs a score
    of at least 1; a score of 1 or more is never level low, and a level
    other than low needs a score of at least 0.5. *)
Theorem escalation_thresholds (self : CrisisDetectionSystem)
    (text : string) (session_id : option string) (now : Z) :
  match (assess_crisis_level self text session_id now).1 with
  | Raise _ => True
  | Ok a =>
      (3 <= crisis_score a -> requires_immediate_intervention a = true)
      ∧ (requires_immediate_intervention a = true -> 2 <= crisis_score a)
      ∧ (2 <= crisis_score a -> requires_escalation a = true)
      ∧ (requires_escalation a = true -> 1 <= crisis_score a)
      ∧ (1 <= crisis_score a -> crisis_level a ≠ "low")
      ∧ (crisis_level a ≠ "low" -> 0.5 <= crisis_score a)
  end.
Proof.
  destruct (_check_crisis_patterns self (lower text)) as [pr | e] eqn:Hp.
  - rewrite (assess_crisis_level_ok _ _ _ _ _ Hp). cbn [fst].
    destruct (_get_relevant_resources self _) as [res | e]; [| done].
    cbn [mbind result_bind crisis_level crisis_score detected_types
         requires_escalation requires_immediate_intervention].
    destruct (level_thresholds (fuse self text pr))
      as (T1 & T2 & T3 & T4 & T5 & T6).
    destruct (flags_by_rank (_determine_crisis_level (fuse self text pr)))
      as (-> & -> & ->).
    cbv zeta in *. rewrite !Nat.leb_le.
    repeat split; [done | done | done | done | |].
    + intros H. specialize (T5 H). lia.
    + intros H. apply T6. lia.
  - unfold assess_crisis_level. by rewrite Hp.
Qed.

(** ** Session tracker, continued *)

Lemma last_n_last_n_app {A} (n : nat) (l1 l2 : list A) :
  last_n n (last_n n l1 ++ l2) = last_n n (l1 ++ l2).
Proof.
  unfold last_n. rewrite !length_app, length_drop.
  destruct (decide (length l1 <= n)%nat) as [Hle | Hgt].
  - replace (length l1 - n)%nat with 0%nat by lia. cbn [drop].
    f_equal. lia.
  - rewrite <- (drop_app_le l1 l2 (length l1 - n)) by lia.
    rewrite drop_drop. f_equal. lia.
Qed.

Lemma check_crisis_patterns_with_history (self : CrisisDetectionSystem)
    (history : gmap string (list SessionRecord)) (text : string) :
  _check_crisis_patterns (with_history self history) text
  = _check_crisis_patterns self text.
Proof. reflexivity. Qed.

Lemma fuse_with_history (self : CrisisDetectionSystem)
    (history : gmap string (list SessionRecord)) (text : string)
    (pattern_results : Results (list string)) :
  fuse (with_history self history) text pattern_results
  = fuse self text pattern_results.
Proof. reflexivity. Qed.

Lemma with_history_with_history (self : CrisisDetectionSystem)
    (history history' : gmap string (list SessionRecord)) :
  with_history (with_history self history) history'
  = with_history self history'.
Proof. reflexivity. Qed.

Lemma session_history_with_history (self : CrisisDetectionSystem)
    (history : gmap string (list SessionRecord)) :
  session_history (with_history self history) = history.
Proof. reflexivity. Qed.

Lemma pattern_results_of_static (history : gmap string (list SessionRecord))
    (text : string) :
  _check_crisis_patterns (with_history __init__ history) (lower text)
  = Ok (pattern_results_of text).
Proof.
  rewrite check_crisis_patterns_with_history. unfold pattern_results_of.
  destruct (check_crisis_patterns_static ∅ (lower text)) as (results & H & _).
  rewrite check_crisis_patterns_with_history in H. by rewrite H.
Qed.


(** The instance after one turn of the static instance. *)
Lemma assess_crisis_level_static_state
    (history : gmap string (list SessionRecord)) (t : turn) :
  (assess_crisis_level (with_history __init__ history) t.1.1 t.1.2 t.2).2
  = with_history __init__
      match truthy t.1.2 with
      | Some id =>
          <[id := last_n 10 (default [] (history !! id) ++ [record_of t])]>
            history
      | None => history
      end.
Proof.
  destruct t as [[text session_id] now]. cbn [fst snd].
  rewrite (assess_crisis_level_ok _ _ _ _ _ (pattern_results_of_static _ _)).
  cbn [snd]. destruct (truthy session_id) as [id |]; [| done].
  rewrite analyze_session_patterns_history, with_history_with_history.
  unfold next_history, record_of.
  by rewrite session_history_with_history, fuse_with_history.
Qed.

Lemma run_turns_cons (self : CrisisDetectionSystem) (t : turn)
    (turns : list turn) :
  run_turns self (t :: turns)
  = run_turns (assess_crisis_level self t.1.1 t.1.2 t.2).2 turns.
Proof. by destruct t as [[text session_id] now]. Qed.

Lemma run_turns_history (turns : list turn) :
  forall (history : gmap string (list SessionRecord)) (session_id : string),
    session_history (run_turns (with_history __init__ history) turns)
      !! session_id
    = match turns_of session_id turns with
      | [] => history !! session_id
      | _ :: _ =>
          Some (last_n 10 (default [] (history !! session_id)
                           ++ (record_of <$> turns_of session_id turns)))
      end.
Proof.
  induction turns as [| t turns IH]; intros history session_id; [done |].
  rewrite run_turns_cons, assess_crisis_level_static_state, IH.
  unfold turns_of. rewrite filter_cons. fold (turns_of session_id turns).
  destruct (truthy t.1.2) as [id |] eqn:E.
  - destruct (decide (id = session_id)) as [-> | Hne].
    + rewrite decide_True by done. rewrite lookup_insert_eq. cbn [default id].
      destruct (turns_of session_id turns) as [| t' turns'] eqn:Et.
      * done.
      * rewrite last_n_last_n_app. by rewrite <- app_assoc.
    + rewrite decide_False by congruence.
      by rewrite lookup_insert_ne.
  - by rewrite decide_False.
Qed.

(** X9: after a conversation on a freshly constructed instance, the
    history kept for a session id holds the records (time, total score,
    detected types) of the turns made under that id, in order, cut to the
    last ten; an id under which no turn was made, and the empty id, have
    no entry. *)
Theorem session_history_of_conversation (turns : list turn)
    (session_id : string) :
  session_history (run_turns __init__ turns) !! session_id
  = match turns_of session_id turns with
    | [] => None
    | _ :: _ => Some (last_n 10 (record_of <$> turns_of session_id turns))
    end.
Proof.
  pose proof (run_turns_history turns ∅ session_id) as H.
  rewrite lookup_empty in H. exact H.
Qed.

(** X10: on a session without history the session tracker returns risk
    0.0 and stores the current record alone; on a session with one record
    it stores both, never returns 0.5 (the trend needs three records) and
    returns 0.3 exactly when the previous and the current total both
    exceed 1. *)
Theorem young_session_risk (self : CrisisDetectionSystem)
    (session_id : string) (current_score : CombinedScore) (now : Z) :
  let old := default [] (session_history self !! session_id) in
  let current := mkSessionRecord now (total_score current_score)
                                 (combined_types current_score) in
  let '(risk, self') :=
    _analyze_session_patterns self session_id current_score now in
  (old = [] ->
     risk = 0.0 ∧ session_history self' !! session_id = Some [current])
  ∧ (forall previous, old = [previous] ->
       session_history self' !! session_id = Some [previous; current]
       ∧ risk ≠ 0.5
       ∧ (risk = 0.3 <-> 1 < score previous ∧ 1 < total_score current_score)).
Proof.
  intros old current.
  pose proof (analyze_session_patterns_history self session_id current_score now)
    as Hstate.
  pose proof (analyze_session_patterns_risk self session_id current_score now)
    as Hrisk.
  destruct (_analyze_session_patterns self session_id current_score now)
    as [risk self'].
  cbv zeta in Hrisk. cbn [fst snd] in Hstate, Hrisk. subst self'.
  rewrite session_history_with_history, lookup_insert_eq.
  unfold next_history in *. fold old current in Hrisk |- *.
  split.
  - intros Hold. rewrite Hold in *.
    change (last_n 10 ([] ++ [current])) with [current] in *.
    change ((3 <=? length [current])%nat) with false in Hrisk.
    cbn [andb] in Hrisk. rewrite filter_cons, filter_nil in Hrisk.
    split; [| done]. by destruct (decide _).
  - intros previous Hold. rewrite Hold in *.
    split; [done |].
    change (last_n 10 ([previous] ++ [current])) with [previous; current]
      in Hrisk.
    rewrite persistent_signal_code in Hrisk.
    change ((3 <=? length [previous; current])%nat) with false in Hrisk.
    cbn [andb] in Hrisk. unfold persistent_signal in Hrisk.
    rewrite !filter_cons, filter_nil in Hrisk.
    destruct (decide (1 < score previous)) as [Hp | Hp],
      (decide (1 < score current)) as [Hc | Hc];
      cbn [score current] in Hc; subst risk;
      (split; [done |]); split; try done; try tauto; by intros [? ?].
Qed.

(** ** Assessment, continued *)

(** X11: a call with a session id and a call without one, at any times,
    either raise the same error or both return; the two assessments then
    differ in the session risk only, which is 0, 0.3 or 0.5 in the call
    with the session id. *)
Theorem session_id_changes_risk_only (self : CrisisDetectionSystem)
    (text : string) (session_id : option string) (now now' : Z) :
  match (assess_crisis_level self text session_id now).1,
        (assess_crisis_level self text None now').1 with
  | Ok tracked, Ok untracked =>
      with_risk tracked 0 = untracked
      ∧ (session_pattern_risk tracked == 0
         ∨ session_pattern_risk tracked = 0.3
         ∨ session_pattern_risk tracked = 0.5)
  | Raise e, Raise e' => e = e'
  | _, _ => False
  end.
Proof.
  destruct (_check_crisis_patterns self (lower text)) as [pr | e] eqn:Hp.
  - rewrite !(assess_crisis_level_ok _ _ _ _ _ Hp). cbn [fst truthy].
    destruct (_get_relevant_resources self _) as [res | e]; [| done].
    cbn [mbind result_bind]. split; [done |].
    cbn [session_pattern_risk].
    destruct (truthy session_id) as [id |]; cbn [fst].
    + rewrite analyze_session_patterns_risk. cbv zeta.
      repeat match goal with
             | |- context [if ?b then _ else _] => destruct b
             end;
        [right; by right | right; by left | left; reflexivity].
    + by left.
  - unfold assess_crisis_level. by rewrite Hp.
Qed.

(** ** Resource resolver, continued *)

(** X12: the resource resolver raises KeyError with the first key its
    directory lacks among those it reads, in reading order (emergency;
    mental_health, then hospitals, when a health type is detected; police
    under emergency when violence is detected; support), and returns a
    bundle when none of them is missing. *)
Theorem get_relevant_resources_missing_key (self : CrisisDetectionSystem)
    (crisis_types : list string) :
  match missing_key self crisis_types with
  | Some key =>
      _get_relevant_resources self crisis_types = Raise (KeyError key)
  | None =>
      exists bundle, _get_relevant_resources self crisis_types = Ok bundle
  end.
Proof.
  unfold missing_key, _get_relevant_resources, getitem.
  rewrite needs_health_contacts_code.
  destruct (emergency_resources self !! "emergency") as [emergency |];
    [| done].
  cbn [mbind result_bind].
  destruct (bool_decide (needs_health_contacts crisis_types)); cbn [andb].
  - destruct (emergency_resources self !! "mental_health") as [mental |];
      [| done].
    rewrite bool_decide_eq_false_2 by done. cbn [mbind result_bind].
    destruct (emergency_resources self !! "hospitals") as [hospitals |];
      [| done].
    rewrite bool_decide_eq_false_2 by done. cbn [mbind result_bind].
    destruct (bool_decide ("violence" ∈ crisis_types)); cbn [andb].
    + destruct (emergency !! "police") as [police |]; [| done].
      rewrite bool_decide_eq_false_2 by done. cbn [mbind result_bind].
      destruct (emergency_resources self !! "support") as [support |];
        [| done].
      rewrite bool_decide_eq_false_2 by done. by eexists.
    + cbn [mbind result_bind].
      destruct (emergency_resources self !! "support") as [support |];
        [| done].
      rewrite bool_decide_eq_false_2 by done. by eexists.
  - destruct (bool_decide ("violence" ∈ crisis_types)); cbn [andb].
    + destruct (emergency !! "police") as [police |]; [| done].
      rewrite bool_decide_eq_false_2 by done. cbn [mbind result_bind].
      destruct (emergency_resources self !! "support") as [support |];
        [| done].
      rewrite bool_decide_eq_false_2 by done. by eexists.
    + cbn [mbind result_bind].
      destruct (emergency_resources self !! "support") as [support |];
        [| done].
      rewrite bool_decide_eq_false_2 by done. by eexists.
Qed.

(** X13: the resource resolver looks at four type names only: two lists
    of types that agree on suicide, self_harm, severe_depression and
    violence get the same result. *)
Theorem get_relevant_resources_known_types (self : CrisisDetectionSystem)
    (crisis_types crisis_types' : list string) :
  (forall t, t ∈ ["suicide"; "self_harm"; "severe_depression"; "violence"] ->
             (t ∈ crisis_types <-> t ∈ crisis_types')) ->
  _get_relevant_resources self crisis_types
  = _get_relevant_resources self crisis_types'.
Proof.
  intros Hsame. unfold _get_relevant_resources.
  rewrite !needs_health_contacts_code.
  assert (Hh : bool_decide (needs_health_contacts crisis_types)
               = bool_decide (needs_health_contacts crisis_types')).
  { apply bool_decide_ext. unfold needs_health_contacts.
    rewrite (Hsame "suicide"), (Hsame "self_harm"),
      (Hsame "severe_depression"); [done | | |];
      rewrite !elem_of_cons; tauto. }
  assert (Hv : bool_decide ("violence" ∈ crisis_types)
               = bool_decide ("violence" ∈ crisis_types')).
  { apply bool_decide_ext. apply Hsame. rewrite !elem_of_cons. tauto. }
  by rewrite Hh, Hv.
Qed.

Lemma get_relevant_resources_known_types_witness :
  (forall t, t ∈ ["suicide"; "self_harm"; "severe_depression"; "violence"] ->
             (t ∈ ["psychosis"; "suicide"; "no_such_type"] <-> t ∈ ["suicide"]))
  ∧ _get_relevant_resources __init__ ["psychosis"; "suicide"; "no_such_type"]
    = _get_relevant_resources __init__ ["suicide"].
Proof.
  assert (H : forall t,
            t ∈ ["suicide"; "self_harm"; "severe_depression"; "violence"] ->
            (t ∈ ["psychosis"; "suicide"; "no_such_type"] <-> t ∈ ["suicide"])).
  { intros t. rewrite !elem_of_cons, !elem_of_nil.
    intros [-> | [-> | [-> | [-> | []]]]];
      split; intros H; repeat destruct H as [H | H]; try done; tauto. }
  split; [exact H |].
  exact (get_relevant_resources_known_types __init__ _ _ H).
Defined.

(** ** Response composer *)

Lemma critical_response_emergency_number (crisis_types : list string) :
  contains "999" (_generate_critical_response crisis_types) = true.
Proof.
  unfold _generate_critical_response.
  destruct (bool_decide _); [by vm_compute |].
  destruct (bool_decide _); by vm_compute.
Qed.

Lemma other_responses_no_emergency_number (crisis_types : list string) :
  contains "999" (_generate_high_response crisis_types) = false
  ∧ contains "999" (_generate_medium_response crisis_types) = false
  ∧ contains "999" (_generate_low_response crisis_types) = false.
Proof. by vm_compute. Qed.

Lemma generate_crisis_response_by_level (a : Assessment) :
  generate_crisis_response a
  = if decide (crisis_level a = "critical")
    then _generate_critical_response (detected_types a)
    else if decide (crisis_level a = "high")
    then _generate_high_response (detected_types a)
    else if decide (crisis_level a = "medium")
    then _generate_medium_response (detected_types a)
    else _generate_low_response (detected_types a).
Proof.
  unfold generate_crisis_response. cbv zeta.
  destruct (String.eqb_spec (crisis_level a) "critical") as [H | H];
    [by rewrite decide_True | rewrite decide_False by done].
  destruct (String.eqb_spec (crisis_level a) "high") as [H' | H'];
    [by rewrite decide_True | rewrite decide_False by done].
  destruct (String.eqb_spec (crisis_level a) "medium") as [H'' | H''];
    [by rewrite decide_True | by rewrite decide_False].
Qed.

(** X14: the response composer answers every level other than critical,
    high and medium with the low-level reply; at level critical with the
    suicide reply when suicide is detected, and with the violence reply
    when violence but not suicide is detected; below critical the reply
    does not depend on the detected types; and the reply contains the
    emergency number 999 exactly at level critical. *)
Theorem generate_crisis_response_selection (a : Assessment) :
  let response := generate_crisis_response a in
  (crisis_level a ∉ ["critical"; "high"; "medium"] ->
     response = _generate_low_response [])
  ∧ (crisis_level a = "critical" -> "suicide" ∈ detected_types a ->
     response = _generate_critical_response ["suicide"])
  ∧ (crisis_level a = "critical" -> "suicide" ∉ detected_types a ->
     "violence" ∈ detected_types a ->
     response = _generate_critical_response ["violence"])
  ∧ (crisis_level a ≠ "critical" ->
     response = generate_crisis_response (with_types a []))
  ∧ (contains "999" response = true <-> crisis_level a = "critical").
Proof.
  intros response. subst response.
  rewrite !generate_crisis_response_by_level.
  cbn [crisis_level detected_types with_types].
  repeat split.
  - rewrite !not_elem_of_cons. intros (? & ? & ? & _).
    by rewrite !decide_False.
  - intros -> Hs. rewrite decide_True by done.
    unfold _generate_critical_response.
    rewrite bool_decide_eq_true_2 by done.
    by rewrite bool_decide_eq_true_2 by (apply list_elem_of_here).
  - intros -> Hs Hv. rewrite decide_True by done.
    unfold _generate_critical_response.
    rewrite bool_decide_eq_false_2 by done.
    rewrite bool_decide_eq_true_2 by done.
    rewrite bool_decide_eq_false_2
      by (rewrite !elem_of_cons, elem_of_nil; intros [? | []]; done).
    by rewrite bool_decide_eq_true_2 by (apply list_elem_of_here).
  - intros Hne. rewrite !(decide_False (P := crisis_level a = "critical")) by done.
    by repeat case_decide.
  - destruct (other_responses_no_emergency_number (detected_types a))
      as (Hh & Hm & Hl).
    repeat case_decide; congruence.
  - intros ->. rewrite decide_True by done.
    apply critical_response_emergency_number.
Qed.

(** X15: on the constructed instance, the reply composed for the
    assessment of a text contains the emergency number 999 exactly when
    the assessment requires immediate intervention, and is the low-level
    reply exactly when the assessment is level low and requires no
    escalation. *)
Theorem reply_carries_emergency_number
    (history : gmap string (list SessionRecord)) (text : string)
    (session_id : option string) (now : Z) :
  exists a,
    (assess_crisis_level (with_history __init__ history) text session_id now).1
    = Ok a
    ∧ contains "999" (generate_crisis_response a)
      = requires_immediate_intervention a
    ∧ (generate_crisis_response a = _generate_low_response [] <->
       requires_escalation a = false ∧ crisis_level a = "low").
Proof.
  rewrite (assess_crisis_level_ok _ _ _ _ _ (pattern_results_of_static _ _)).
  cbn [fst]. rewrite get_relevant_resources_static. cbn [mbind result_bind].
  eexists. split; [reflexivity |].
  rewrite generate_crisis_response_by_level.
  cbn [crisis_level detected_types requires_immediate_intervention
       requires_escalation].
  set (fused := fuse _ _ _).
  destruct (other_responses_no_emergency_number (combined_types fused))
    as (Hh & Hm & Hl).
  pose proof (critical_response_emergency_number (combined_types fused)) as Hc.
  destruct (_determine_crisis_level fused); cbn [level_value].
  - rewrite !decide_False by done. split; [by rewrite Hl |].
    split; [by intros _ | done].
  - rewrite decide_False by done. rewrite decide_False by done.
    rewrite decide_True by done. split; [by rewrite Hm |].
    split; [by vm_compute | by intros [_ ?]].
  - rewrite decide_False by done. rewrite decide_True by done.
    split; [by rewrite Hh |].
    split; [by vm_compute | by intros [_ ?]].
  - rewrite decide_True by done. split; [by rewrite Hc |].
    split; [| by intros [_ ?]].
    intros H. exfalso. rewrite H in Hc. by vm_compute in Hc.
Qed.

(** ** Texts without Arabic letters *)

Lemma lower_ascii_non_ascii (c : ascii) :
  is_ascii c = false -> lower_ascii c = c.
Proof.
  unfold is_ascii, lower_ascii. intros H. apply N.ltb_ge in H.
  destruct (N_of_ascii c <=? 90)%N eqn:E.
  - apply N.leb_le in E. lia.
  - by rewrite andb_false_r.
Qed.

Lemma lower_ascii_is_ascii (c : ascii) :
  is_ascii c = true -> is_ascii (lower_ascii c) = true.
Proof.
  unfold is_ascii, lower_ascii. intros H. apply N.ltb_lt in H.
  destruct ((65 <=? N_of_ascii c) && (N_of_ascii c <=? 90))%N eqn:E; [| by apply N.ltb_lt].
  apply andb_true_iff in E as [_ E]. apply N.leb_le in E.
  rewrite N_ascii_embedding by lia. apply N.ltb_lt. lia.
Qed.

Lemma lower_ascii_only (text : string) :
  ascii_only text = true -> ascii_only (lower text) = true.
Proof.
  induction text as [| c text IH]; [done |]. simpl.
  rewrite !andb_true_iff. intros [Hc Ht].
  split; [by apply lower_ascii_is_ascii | by apply IH].
Qed.

Lemma lower_starts_non_ascii (s : string) :
  starts_non_ascii s = true -> starts_non_ascii (lower s) = true.
Proof.
  destruct s as [| c s]; [done |]. simpl. rewrite !negb_true_iff.
  intros H. by rewrite lower_ascii_non_ascii.
Qed.

Lemma contains_ascii_only (needle hay : string) :
  starts_non_ascii needle = true -> ascii_only hay = true ->
  contains needle hay = false.
Proof.
  destruct needle as [| b needle]; [done |]. cbn [starts_non_ascii].
  rewrite negb_true_iff. intros Hb.
  induction hay as [| c hay IH]; [done |]. cbn [ascii_only].
  rewrite andb_true_iff. intros [Hc Hhay].
  rewrite contains_cons, (IH Hhay), orb_false_r. cbn [String.prefix].
  destruct (ascii_dec b c) as [-> | _]; [congruence | done].
Qed.

Lemma matching_ascii_only (entries : list string) (text : string) :
  Forall (fun entry => starts_non_ascii entry = true) entries ->
  ascii_only text = true ->
  matching entries text = [].
Proof.
  intros Hall Htext. unfold matching.
  induction Hall as [| entry entries He _ IH]; [done |].
  rewrite filter_cons, IH.
  rewrite decide_False; [done |].
  rewrite contains_ascii_only; [done | by apply lower_starts_non_ascii | done].
Qed.

Lemma check_table_ascii_only (weight : Q)
    (table : list (CrisisType * list string)) (text : string) :
  0 < weight ->
  Forall (fun entry : CrisisType * list string =>
            Forall (fun e => starts_non_ascii e = true) entry.2) table ->
  ascii_only text = true ->
  check_table weight table text = mkResults [] ∅ [].
Proof.
  intros Hw Hall Htext.
  induction table as [| [crisis_type entries] table IH] using rev_ind;
    [done |].
  apply Forall_app in Hall as [Hall He]. apply Forall_inv in He.
  cbn [snd] in He.
  rewrite check_table_snoc, (IH Hall). cbv zeta.
  rewrite (scan_entries_positive _ _ _ Hw).
  rewrite (matching_ascii_only _ _ He Htext).
  by rewrite bool_decide_eq_false_2 by (intros H; by apply H).
Qed.

Lemma strip_prefix_ascii (bytes s : string) :
  starts_non_ascii bytes = true ->
  starts_non_ascii s = false ->
  re.strip_prefix bytes s = None.
Proof.
  destruct bytes as [| b bytes]; [done |]. destruct s as [| c s]; [done |].
  cbn [starts_non_ascii re.strip_prefix].
  rewrite negb_true_iff, negb_false_iff. intros Hb Hc.
  rewrite (lower_ascii_non_ascii b Hb).
  destruct (Ascii.eqb_spec b (lower_ascii c)) as [-> | _]; [| done].
  apply lower_ascii_is_ascii in Hc. congruence.
Qed.

(** No match starts at an ASCII character or at the end of the text. *)
Lemma run_ascii (r : re.regex) :
  head_non_ascii r = true ->
  forall caps s k, starts_non_ascii s = false -> re.run r caps s k = None.
Proof.
  induction r as [| bytes | | r1 IH1 r2 IH2 | r1 IH1 r2 IH2 | r1 IH1 | r1 IH1];
    cbn [head_non_ascii]; try done; intros Hr caps s k Hs; cbn [re.run].
  - by rewrite strip_prefix_ascii.
  - by apply IH1.
  - apply andb_true_iff in Hr as [Hr1 Hr2].
    by rewrite IH1, IH2.
  - by apply IH1.
Qed.

Lemma ascii_only_starts (s : string) :
  ascii_only s = true -> starts_non_ascii s = false.
Proof.
  destruct s as [| c s]; [done |]. cbn [ascii_only starts_non_ascii].
  rewrite andb_true_iff, negb_false_iff. by intros [? _].
Qed.

Lemma search_ascii (r : re.regex) (s : string) (must_advance : bool) :
  head_non_ascii r = true -> ascii_only s = true ->
  re.search r s must_advance = None.
Proof.
  intros Hr. revert must_advance.
  induction s as [| c s IH]; intros must_advance Hs.
  - cbn [re.search]. unfold re.attempt. by rewrite (run_ascii r Hr).
  - cbn [re.search]. cbv zeta. unfold re.attempt.
    rewrite (run_ascii r Hr _ _ _ (ascii_only_starts _ Hs)).
    cbn [ascii_only] in Hs. apply andb_true_iff in Hs as [_ Hs].
    rewrite (IH false Hs). by destruct (re.is_continuation c).
Qed.

Lemma findall_ascii (pattern text : string) :
  compiles_to_non_ascii_head pattern = true -> ascii_only text = true ->
  re.findall pattern text = Ok [].
Proof.
  unfold compiles_to_non_ascii_head, re.findall.
  destruct (re.compile pattern) as [r |]; [| done].
  intros Hr Htext. f_equal.
  generalize (2 * String.length text + 2)%nat. intros [| rounds]; [done |].
  cbn [re.matches]. by rewrite search_ascii.
Qed.

Lemma check_patterns_ascii (table : list (string * (CrisisType * Q)))
    (text : string) (results : Results (list string)) :
  Forall (fun entry => compiles_to_non_ascii_head entry.1 = true) table ->
  ascii_only text = true ->
  check_patterns table text results = Ok results.
Proof.
  intros Hall Htext.
  induction Hall as [| [pattern [crisis_type weight]] table Hp _ IH];
    [done |].
  cbn [check_patterns]. cbn [fst] in Hp.
  by rewrite (findall_ascii _ _ Hp Htext).
Qed.

Lemma static_tables_arabic :
  Forall (fun entry : CrisisType * list string =>
            Forall (fun e => starts_non_ascii e = true) entry.2)
         (crisis_keywords __init__)
  ∧ Forall (fun entry : CrisisType * list string =>
              Forall (fun e => starts_non_ascii e = true) entry.2)
           (omani_crisis_expressions __init__)
  ∧ Forall (fun entry => compiles_to_non_ascii_head entry.1 = true)
           (crisis_patterns __init__).
Proof.
  repeat split; apply (bool_decide_unpack _); vm_compute; exact I.
Qed.

Lemma fuse_nothing :
  let nothing := _calculate_combined_score (mkResults [] ∅ [])
                   (mkResults [] ∅ []) (mkResults [] ∅ []) in
  combined_types nothing = [] ∧ total_score nothing = 0
  ∧ _determine_crisis_level nothing = LOW.
Proof. by vm_compute. Qed.

(** X16: on the constructed instance a text of ASCII characters only
    (an English message, for instance) is never detected: the assessment
    is level low with score 0, no detected types and no flag, and the
    reply is the low-level one. *)
Theorem ascii_text_is_low (history : gmap string (list SessionRecord))
    (text : string) (session_id : option string) (now : Z) :
  ascii_only text = true ->
  exists a,
    (assess_crisis_level (with_history __init__ history) text session_id now).1
    = Ok a
    ∧ crisis_level a = "low"
    ∧ crisis_score a = 0
    ∧ detected_types a = []
    ∧ requires_escalation a = false
    ∧ requires_immediate_intervention a = false
    ∧ generate_crisis_response a = _generate_low_response [].
Proof.
  intros Htext. apply lower_ascii_only in Htext.
  destruct static_tables_arabic as (Hk & Hd & Hp).
  assert (Hpr : _check_crisis_patterns (with_history __init__ history)
                  (lower text) = Ok (mkResults [] ∅ [])).
  { rewrite check_crisis_patterns_with_history.
    by apply check_patterns_ascii. }
  rewrite (assess_crisis_level_ok _ _ _ _ _ Hpr). cbn [fst].
  rewrite get_relevant_resources_static. cbn [mbind result_bind].
  eexists. split; [reflexivity |].
  rewrite generate_crisis_response_by_level.
  cbn [crisis_level crisis_score detected_types requires_escalation
       requires_immediate_intervention].
  rewrite fuse_with_history. unfold fuse.
  unfold _check_crisis_keywords, _check_omani_expressions.
  rewrite (check_table_ascii_only 1 _ _ ltac:(done) Hk Htext).
  rewrite (check_table_ascii_only 1.2 _ _ ltac:(done) Hd Htext).
  destruct fuse_nothing as (-> & -> & ->).
  repeat split.
Qed.

Lemma ascii_text_is_low_witness :
  ascii_only "I am fine, thanks." = true
  ∧ exists a,
      (assess_crisis_level (with_history __init__ ∅) "I am fine, thanks."
                           (Some "s") 0).1 = Ok a
      ∧ crisis_level a = "low"
      ∧ crisis_score a = 0
      ∧ detected_types a = []
      ∧ requires_escalation a = false
      ∧ requires_immediate_intervention a = false
      ∧ generate_crisis_response a = _generate_low_response [].
Proof.
  split; [reflexivity |].
  exact (ascii_text_is_low ∅ "I am fine, thanks." (Some "s") 0 eq_refl).
Defined.

(** ** Invariants of the channel results *)

Lemma check_table_types_distinct (weight : Q)
    (table : list (CrisisType * list string)) (text : string) :
  0 < weight -> NoDup table.*1 ->
  NoDup (types (check_table weight table text)).
Proof.
  intros Hw Hnd. destruct (check_table_reports weight table text Hw) as [-> _].
  apply NoDup_fmap_2; [apply _ |].
  apply (sublist_NoDup _ table.*1); [done |].
  apply fmap_sublist, sublist_filter.
Qed.

Lemma check_patterns_types_distinct
    (table : list (string * (CrisisType * Q))) (text : string) :
  forall results results',
    NoDup (types results) ->
    list_to_set (types results) = dom (scores results) ->
    check_patterns table text results = Ok results' ->
    NoDup (types results').
Proof.
  induction table as [| [pattern [crisis_type weight]] table IH];
    intros results results' Hnd Hdom.
  - by intros [= <-].
  - cbn [check_patterns].
    destruct (re.findall pattern text) as [hits | e]; [| done].
    cbn [mbind result_bind]. destruct hits as [| m hits]; [by apply IH |].
    apply IH; case_bool_decide as Hin; cbn [types scores]; try done.
    + apply NoDup_app. split; [done |]. split; [| apply NoDup_singleton].
      intros t Ht. rewrite list_elem_of_singleton. intros ->.
      apply Hin. rewrite <- Hdom. by apply elem_of_list_to_set.
    + rewrite dom_insert_L, Hdom. apply set_eq. intros t.
      rewrite elem_of_union, elem_of_singleton.
      split; [by right | intros [-> | ?]; done].
    + rewrite insert_insert_eq, dom_insert_L, list_to_set_app_L, Hdom.
      simpl. rewrite (right_id_L ∅ (∪)). apply (comm_L (∪)).
Qed.

Lemma check_crisis_patterns_types_distinct (self : CrisisDetectionSystem)
    (text : string) (results : Results (list string)) :
  _check_crisis_patterns self text = Ok results -> NoDup (types results).
Proof.
  unfold _check_crisis_patterns.
  apply check_patterns_types_distinct; [apply NoDup_nil_2 | done].
Qed.

Lemma check_table_matchers_with_history (self : CrisisDetectionSystem)
    (history : gmap string (list SessionRecord)) (text : string) :
  _check_crisis_keywords (with_history self history) text
  = _check_crisis_keywords self text
  ∧ _check_omani_expressions (with_history self history) text
    = _check_omani_expressions self text.
Proof. by split. Qed.

(** X17: on the constructed instance each of the three matchers returns
    (the pattern matcher without error) a result whose scored types are
    exactly the reported ones, whose scores are all positive, and which
    reports no type twice. *)
Theorem channel_results_invariants
    (history : gmap string (list SessionRecord)) (text : string) :
  let self := with_history __init__ history in
  (well_formed (_check_crisis_keywords self text)
   ∧ NoDup (types (_check_crisis_keywords self text)))
  ∧ (well_formed (_check_omani_expressions self text)
     ∧ NoDup (types (_check_omani_expressions self text)))
  ∧ exists pattern_results,
      _check_crisis_patterns self text = Ok pattern_results
      ∧ well_formed pattern_results
      ∧ NoDup (types pattern_results).
Proof.
  intros self. subst self.
  destruct (check_table_matchers_with_history __init__ history text)
    as [-> ->].
  destruct keyword_tables_distinct_keys as [Hk Hd].
  split; [| split].
  - split; [apply check_table_well_formed |].
    by apply check_table_types_distinct.
  - split; [apply check_table_well_formed |].
    by apply check_table_types_distinct.
  - destruct (check_crisis_patterns_static history text) as (pr & Hp & Hw).
    exists pr. split; [done |]. split; [done |].
    by apply (check_crisis_patterns_types_distinct _ _ _ Hp).
Qed.

(** ** Texts that match keywords only *)









Example single_suicide_keyword_is_low :
  exists a,
    (assess_crisis_level __init__ "انتحار" None 0).1 = Ok a
    ∧ detected_types a = ["suicide"] ∧ crisis_score a == 0.3
    ∧ crisis_level a = "low".
Proof. eexists. split; [by vm_compute |]. by vm_compute. Qed.
